(** * Hextris host integration: session acquisition, pause timer, score report

    A shallow embedding of [src/js/initialization.js] (session parameters,
    host messaging) and of [src/js/view.js] (score submission, pause and
    resume with the countdown compensation), followed by the properties
    of the specification that concern them.

    Conventions.
    - JavaScript numbers that the code only ever produces with [parseInt]
      or reads from [Date.now()] are integers ([Z]); numbers that go
      through a division are exact rationals ([Q]), so rounding of IEEE
      doubles is not part of the model.
    - Console output, DOM animation, host messages, timers and the HTTP
      request are recorded, in program order, in a trace of [Effect]s.
    - A JavaScript exception is the value [None] of the monad [M]; the
      globals written before the exception stay written. *)

From Stdlib Require Import ZArith QArith Qround Qminmax String Ascii List Bool Lia.
From Stdlib Require Import DecimalString Lqa.
Import ListNotations.
Local Open Scope Z_scope.
Local Open Scope string_scope.

(* ================================================================= *)
(** ** JavaScript values held by the session variables *)

Module Js.

(** The values the session globals take: [null] (their initial value),
    [undefined] (a field missing from the injected object), a string or an
    integer number. *)
Inductive jsval : Type :=
  | JUndefined
  | JNull
  | JStr (s : string)
  | JNum (n : Z).

(** [ToBoolean]: what [!v], [v && ..] and [v || ..] test. *)
Definition truthy (v : jsval) : bool :=
  match v with
  | JStr s => negb (s =? "")
  | JNum n => negb (n =? 0)%Z
  | JUndefined | JNull => false
  end.

(** [a || b] *)
Definition jor (a b : jsval) : jsval := if truthy a then a else b.

(** [ToString], as string concatenation applies it (integers of
    ordinary size print in decimal). *)
Definition toString (v : jsval) : string :=
  match v with
  | JUndefined => "undefined"
  | JNull => "null"
  | JStr s => s
  | JNum n => NilEmpty.string_of_int (Z.to_int n)
  end.

Definition is_undefined (v : jsval) : bool :=
  match v with JUndefined => true | _ => false end.

(** [v === s] for a string literal [s]. *)
Definition strict_eq_str (v : jsval) (s : string) : bool :=
  match v with JStr t => t =? s | _ => false end.

(** Browser built-ins the code calls.  They are not code of the
    repository, so the model takes them as an interface:
    [decodeURIComponent] answers [None] where the built-in throws
    [URIError]; [parseInt] answers [None] for [NaN]. *)
Class Builtins : Type := {
  decodeURIComponent : string -> option string;
  parseInt : jsval -> option Z
}.

(** [parseInt(v) || 15]: [NaN] and [0] are falsy. *)
Definition parseInt_or_15 `{Builtins} (v : jsval) : Z :=
  match parseInt v with
  | Some n => if (n =? 0)%Z then 15 else n
  | None => 15
  end.

End Js.
Export Js.

(* ================================================================= *)
(** ** Observable effects *)

(** Callbacks handed to [setTimeout]. *)
Inductive Callback : Type :=
  | CheckSessionAndUpdateUI   (* initialization.js:178,197 *)
  | ResumeSettled             (* view.js:250-253 *)
  | PauseSettled.             (* view.js:267-269 *)

(** The object given to [fetch]. *)
Record Request : Type := {
  req_url : string;
  req_method : string;
  req_headers : list (string * string);
  req_score : Z;
  req_time : Z
}.

Inductive Effect : Type :=
  | ConsoleLog (msg : string)
  | ConsoleWarn (msg : string)
  | ConsoleError (msg : string)
  | PostMessage (type : string) (data : option string)
      (* window.parent.postMessage({type[, data]}, '*') *)
  | CallHandler (name : string) (type : option string) (data : option string)
      (* window.flutter_inappwebview.callHandler(name[, {type, data}]) *)
  | WindowClose
  | AddMessageListener
  | FadeIn (selector : string)
  | FadeOut (selector : string)
  | ShowText (text : string)
  | HideText
  | WriteHighScores
  | SetTimeout (cb : Callback) (ms : Z)
  | Fetch (req : Request).

(* ================================================================= *)
(** ** initialization.js *)

Module Init.

(** The "Flutter integration variables" (initialization.js:2-10). *)
Record Flutter : Type := {
  poolId : jsval;
  sessionId : jsval;
  authToken : jsval;
  gameTimerDuration : Z;
  apiServerUrl : jsval;
  sessionReady : bool
}.

Definition initialFlutter : Flutter := {|
  poolId := JNull;
  sessionId := JNull;
  authToken := JNull;
  gameTimerDuration := 15;
  apiServerUrl := JStr "https://api.metaninza.net";
  sessionReady := false
|}.

(** [window.__GAME_SESSION__], the object the host injects. *)
Record GameSession : Type := {
  gs_sessionId : jsval;
  gs_token : jsval;
  gs_poolId : jsval;
  gs_timerDuration : jsval;
  gs_timer : jsval;
  gs_apiServerUrl : jsval;
  gs_apiServer : jsval;
  gs_expiresAt : option Z   (* milliseconds since the epoch, when given *)
}.

(** What one call reads from the browser. *)
Record Window : Type := {
  GAME_SESSION : option GameSession;   (* window.__GAME_SESSION__ *)
  location_search : string;            (* location.search *)
  Date_now : Z;                        (* Date.now() *)
  in_frame : bool;                     (* window.parent && window.parent !== window *)
  flutter_inappwebview : bool;         (* window.flutter_inappwebview *)
  win_gameState : option Z             (* the global gameState *)
}.

(** *** The monad of the module: globals, trace, exception *)

Record Res (A : Type) : Type := mkRes {
  value : option A;        (* [None]: an exception was thrown *)
  final : Flutter;
  trace : list Effect
}.
Arguments mkRes {A} _ _ _.
Arguments value {A} _.
Arguments final {A} _.
Arguments trace {A} _.

Definition M (A : Type) : Type := Flutter -> Res A.

Definition ret {A} (a : A) : M A := fun s => mkRes (Some a) s [].

Definition bind {A B} (m : M A) (k : A -> M B) : M B :=
  fun s =>
    match m s with
    | mkRes (Some a) s1 t1 =>
        match k a s1 with
        | mkRes v s2 t2 => mkRes v s2 (t1 ++ t2)
        end
    | mkRes None s1 t1 => mkRes None s1 t1
    end.

Definition throw {A} : M A := fun s => mkRes None s [].
Definition get : M Flutter := fun s => mkRes (Some s) s [].
Definition modify (f : Flutter -> Flutter) : M unit := fun s => mkRes (Some tt) (f s) [].
Definition emit (e : Effect) : M unit := fun s => mkRes (Some tt) s [e].

Declare Scope js_scope.
Delimit Scope js_scope with js.
Notation "x <- m ;; k" := (bind m (fun x => k))
  (at level 61, m at next level, right associativity) : js_scope.
Notation "m ;; k" := (bind m (fun _ => k))
  (at level 61, right associativity) : js_scope.
Local Open Scope js_scope.

Definition set_poolId (v : jsval) : M unit :=
  modify (fun s => {| poolId := v; sessionId := sessionId s; authToken := authToken s;
                      gameTimerDuration := gameTimerDuration s;
                      apiServerUrl := apiServerUrl s; sessionReady := sessionReady s |}).
Definition set_sessionId (v : jsval) : M unit :=
  modify (fun s => {| poolId := poolId s; sessionId := v; authToken := authToken s;
                      gameTimerDuration := gameTimerDuration s;
                      apiServerUrl := apiServerUrl s; sessionReady := sessionReady s |}).
Definition set_authToken (v : jsval) : M unit :=
  modify (fun s => {| poolId := poolId s; sessionId := sessionId s; authToken := v;
                      gameTimerDuration := gameTimerDuration s;
                      apiServerUrl := apiServerUrl s; sessionReady := sessionReady s |}).
Definition set_gameTimerDuration (n : Z) : M unit :=
  modify (fun s => {| poolId := poolId s; sessionId := sessionId s; authToken := authToken s;
                      gameTimerDuration := n;
                      apiServerUrl := apiServerUrl s; sessionReady := sessionReady s |}).
Definition set_apiServerUrl (v : jsval) : M unit :=
  modify (fun s => {| poolId := poolId s; sessionId := sessionId s; authToken := authToken s;
                      gameTimerDuration := gameTimerDuration s;
                      apiServerUrl := v; sessionReady := sessionReady s |}).
Definition set_sessionReady (b : bool) : M unit :=
  modify (fun s => {| poolId := poolId s; sessionId := sessionId s; authToken := authToken s;
                      gameTimerDuration := gameTimerDuration s;
                      apiServerUrl := apiServerUrl s; sessionReady := b |}).

(** *** getUrlParameter (initialization.js:13-18)

    Every call site passes a literal name made of letters, on which the
    two bracket escapes of line 14 are the identity and the regular
    expression (one of ? and &, the name, =, then a group of characters
    other than & and #) matches the name literally. *)

(** The capture group: the longest prefix free of & and #. *)
Fixpoint capture (s : string) : string :=
  match s with
  | EmptyString => EmptyString
  | String c rest =>
      if (Ascii.eqb c "&" || Ascii.eqb c "#")%bool then EmptyString
      else String c (capture rest)
  end.

(** [regex.exec(location.search)]: the leftmost position that holds [?] or
    [&], then the name, then [=]; the result is the capture group. *)
Fixpoint regex_exec (name : string) (s : string) : option string :=
  match s with
  | EmptyString => None
  | String c rest =>
      if ((Ascii.eqb c "?" || Ascii.eqb c "&") && prefix (name ++ "=") rest)%bool
      then Some (capture (substring (String.length name + 1)
                                    (String.length rest - (String.length name + 1)) rest))
      else regex_exec name rest
  end.

(** [.replace(/\+/g, ' ')] *)
Fixpoint plus_to_space (s : string) : string :=
  match s with
  | EmptyString => EmptyString
  | String c rest => String (if Ascii.eqb c "+" then " "%char else c) (plus_to_space rest)
  end.

(** The value of [getUrlParameter(name)], or [None] when
    [decodeURIComponent] throws. *)
Definition url_parameter `{Builtins} (name : string) (search : string) : option string :=
  match regex_exec name search with
  | None => Some ""
  | Some raw => decodeURIComponent (plus_to_space raw)
  end.

Definition getUrlParameter `{Builtins} (w : Window) (name : string) : M jsval :=
  match url_parameter name (location_search w) with
  | Some v => ret (JStr v)
  | None => throw
  end.

(** *** initFlutterParams (initialization.js:21-132) *)

Definition has_session (w : Window) : bool :=
  match GAME_SESSION w with Some _ => true | None => false end.

(** Lines 23-31: ask the host for the parameters. *)
Definition requestParams (w : Window) : M unit :=
  s <- get ;;
  if (negb (has_session w) && negb (truthy (sessionId s)) && negb (truthy (authToken s)))%bool
  then
    emit (ConsoleLog "Requesting Flutter for session parameters...") ;;
    if in_frame w then emit (PostMessage "requestSessionParams" None)
    else if flutter_inappwebview w then emit (CallHandler "requestSessionParams" None None)
    else ret tt
  else ret tt.

(** Line 39: [expiresAt && Date.now() > expiresAt]. *)
Definition expired (w : Window) (gs : GameSession) : bool :=
  match gs_expiresAt gs with
  | Some e => (negb (e =? 0)%Z && (e <? Date_now w)%Z)%bool
  | None => false
  end.

(** Lines 35-64: the injected object is present. *)
Definition fromInjected `{Builtins} (w : Window) (gs : GameSession) : M unit :=
  set_sessionId (gs_sessionId gs) ;;
  set_authToken (gs_token gs) ;;
  (if expired w gs
   then emit (ConsoleWarn "Game session has expired") ;;
        set_sessionId JNull ;;
        set_authToken JNull
   else ret tt) ;;
  (if truthy (gs_poolId gs) then set_poolId (gs_poolId gs)
   else p <- getUrlParameter w "poolId" ;; set_poolId p) ;;
  (if negb (is_undefined (gs_timerDuration gs))
   then set_gameTimerDuration (parseInt_or_15 (gs_timerDuration gs))
   else if negb (is_undefined (gs_timer gs))
   then set_gameTimerDuration (parseInt_or_15 (gs_timer gs))
   else ret tt) ;;
  (if truthy (gs_apiServerUrl gs) then set_apiServerUrl (gs_apiServerUrl gs)
   else if truthy (gs_apiServer gs) then set_apiServerUrl (gs_apiServer gs)
   else ret tt).

(** Lines 67-81: no injected object, the URL parameters are read. *)
Definition fromUrl `{Builtins} (w : Window) : M unit :=
  p <- getUrlParameter w "poolId" ;;
  set_poolId p ;;
  i <- getUrlParameter w "sessionId" ;;
  set_sessionId i ;;
  a <- getUrlParameter w "authToken" ;;
  set_authToken a ;;
  urlTimer <- getUrlParameter w "timer" ;;
  (if truthy urlTimer then set_gameTimerDuration (parseInt_or_15 urlTimer) else ret tt) ;;
  u <- getUrlParameter w "apiServerUrl" ;;
  urlApiServer <- (if truthy u then ret u else getUrlParameter w "apiServer") ;;
  (if truthy urlApiServer then set_apiServerUrl urlApiServer else ret tt).

(** Lines 34 and 65: the choice between the two. *)
Definition resolveSession `{Builtins} (w : Window) : M unit :=
  match GAME_SESSION w with
  | Some gs => fromInjected w gs
  | None => fromUrl w
  end.

(** Lines 85-107: a listener for host messages is added when embedded. *)
Definition listen (w : Window) : M unit :=
  if in_frame w then emit AddMessageListener else ret tt.

(** [event.data] of a host message. *)
Record MessageData : Type := {
  md_type : jsval;
  md_poolId : jsval;
  md_sessionId : jsval;
  md_authToken : jsval;
  md_timerDuration : jsval;
  md_apiServerUrl : jsval;
  md_apiServer : jsval
}.

(** Lines 86-106: the listener itself; [None] is a falsy [event.data]. *)
Definition onMessage `{Builtins} (gameState : option Z) (data : option MessageData) : M unit :=
  match data with
  | None => ret tt
  | Some d =>
      if strict_eq_str (md_type d) "flutterParams" then
        s <- get ;;
        set_poolId (jor (md_poolId d) (poolId s)) ;;
        set_sessionId (jor (md_sessionId d) (sessionId s)) ;;
        set_authToken (jor (md_authToken d) (authToken s)) ;;
        (if truthy (md_timerDuration d)
         then set_gameTimerDuration (parseInt_or_15 (md_timerDuration d))
         else ret tt) ;;
        (if (truthy (md_apiServerUrl d) || truthy (md_apiServer d))%bool
         then set_apiServerUrl (jor (md_apiServerUrl d) (md_apiServer d))
         else ret tt) ;;
        s' <- get ;;
        if (truthy (sessionId s') && truthy (authToken s'))%bool
        then set_sessionReady true ;;
             (match gameState with
              | Some 0%Z => emit (FadeIn "#startBtn")
              | _ => ret tt
              end)
        else ret tt
      else ret tt
  end.

(** Lines 110-117: the debug block. *)
Definition debugBlock `{Builtins} (w : Window) : M unit :=
  d <- getUrlParameter w "debug" ;;
  let debugMode := strict_eq_str d "true" in
  s <- get ;;
  if (debugMode && negb (truthy (sessionId s)) && negb (truthy (authToken s)))%bool
  then
    p <- getUrlParameter w "poolId" ;;
    set_poolId (jor p (jor (poolId s) (JStr "test-pool-123"))) ;;
    i <- getUrlParameter w "sessionId" ;;
    set_sessionId (jor i (jor (sessionId s) (JStr "test-session-456"))) ;;
    a <- getUrlParameter w "authToken" ;;
    set_authToken (jor a (jor (authToken s) (JStr "test-token-789"))) ;;
    emit (ConsoleLog "DEBUG MODE: Using test parameters")
  else ret tt.

(** Lines 120-131: the readiness flag. *)
Definition updateReady : M unit :=
  s <- get ;;
  if (truthy (sessionId s) && truthy (authToken s))%bool
  then set_sessionReady true ;;
       emit (ConsoleLog "Flutter session initialized successfully")
  else set_sessionReady false ;;
       emit (ConsoleLog "Flutter session parameters not found - waiting for session...").

Definition initFlutterParams `{Builtins} (w : Window) : M unit :=
  requestParams w ;;
  resolveSession w ;;
  listen w ;;
  debugBlock w ;;
  updateReady.

(** Lines 21-107, what comes before the debug block. *)
Definition resolved `{Builtins} (w : Window) : M unit :=
  requestParams w ;;
  resolveSession w ;;
  listen w.

(** *** Host messaging (initialization.js:135-164) *)

Definition closeFlutterWindow (w : Window) : M unit :=
  if in_frame w then emit (PostMessage "closeGame" None)
  else if flutter_inappwebview w then emit (CallHandler "closeGame" None None)
  else emit WindowClose.

Definition sendMessageToFlutter (w : Window) (type data : string) : M unit :=
  if in_frame w then emit (PostMessage type (Some data))
  else if flutter_inappwebview w then emit (CallHandler "onMessage" (Some type) (Some data))
  else emit (ConsoleLog "Flutter message:").

(** *** The polling cycle (initialization.js:167-180, 216-223) *)

Definition checkSessionAndUpdateUI `{Builtins} (w : Window) : M unit :=
  s0 <- get ;;
  let wasReady := sessionReady s0 in
  initFlutterParams w ;;
  s1 <- get ;;
  (if (sessionReady s1 && negb wasReady
       && match win_gameState w with Some 0%Z => true | _ => false end)%bool
   then emit (FadeIn "#startBtn") else ret tt) ;;
  (if negb (sessionReady s1) then emit (SetTimeout CheckSessionAndUpdateUI 500) else ret tt).

Definition reinitFlutterSession `{Builtins} (w : Window) : M bool :=
  initFlutterParams w ;;
  s <- get ;;
  if (truthy (sessionId s) && truthy (authToken s))%bool
  then emit (ConsoleLog "Session re-initialized successfully") ;; ret true
  else ret false.

(** The host signal that asks for the session parameters. *)
Definition is_request (e : Effect) : bool :=
  match e with
  | PostMessage type _ => type =? "requestSessionParams"
  | CallHandler name _ _ => name =? "requestSessionParams"
  | _ => false
  end.

Definition requests (t : list Effect) : nat := List.length (List.filter is_request t).

End Init.

(* ================================================================= *)
(** ** view.js *)

Module View.
Import Init.
Local Open Scope bool_scope.

(** The game globals that [pause] and [submitScoreToFlutter] use
    (declared in initialization.js:330, 355-358 and view.js:219);
    [None] is [undefined]. *)
Record Game : Type := {
  gameState : option Z;
  prevGameState : option Z;
  pausable : bool;
  score : Z;
  gameTimer : option Q;
  gameTimerStartTime : option Q;        (* milliseconds *)
  gameTimerPausedElapsed : option Q     (* seconds *)
}.

(** [v == n] for a state variable and a number literal. *)
Definition eqn (v : option Z) (n : Z) : bool :=
  match v with Some m => (m =? n)%Z | None => false end.

(** Lines 245-249: the start time is moved by the length of the pause. *)
Definition compensate (now : Z) (g : Game) : Game :=
  match gameTimerPausedElapsed g, gameTimerStartTime g with
  | Some pausedElapsed, Some startTime =>
      if eqn (prevGameState g) 1 then
        let pauseDuration := (inject_Z now - (startTime + pausedElapsed * 1000))%Q in
        {| gameState := gameState g; prevGameState := prevGameState g;
           pausable := pausable g; score := score g; gameTimer := gameTimer g;
           gameTimerStartTime := Some (startTime + pauseDuration)%Q;
           gameTimerPausedElapsed := None |}
      else g
  | _, _ => g
  end.

(** Lines 261-266 and 270: the state is remembered, the elapsed seconds
    are stored, the state becomes -1. *)
Definition snapshot (now : Z) (g : Game) : Game :=
  {| gameState := Some (-1)%Z;
     prevGameState := gameState g;
     pausable := pausable g; score := score g; gameTimer := gameTimer g;
     gameTimerStartTime := gameTimerStartTime g;
     gameTimerPausedElapsed :=
       match gameTimerStartTime g with
       | Some startTime => Some ((inject_Z now - startTime) / 1000)%Q
       | None => gameTimerPausedElapsed g
       end |}.

Definition set_pausable (b : bool) (g : Game) : Game :=
  {| gameState := gameState g; prevGameState := prevGameState g;
     pausable := b; score := score g; gameTimer := gameTimer g;
     gameTimerStartTime := gameTimerStartTime g;
     gameTimerPausedElapsed := gameTimerPausedElapsed g |}.

(** [pause(o)] (view.js:220-272) at wall-clock time [now];
    [helpVisible] is [$('#helpScreen').is(':visible')].  The result is
    the new globals and the effects, among them the timer it starts. *)
Definition pause (o : bool) (now : Z) (helpVisible : bool) (g : Game)
  : Game * list Effect :=
  if eqn (gameState g) 0 || eqn (gameState g) 2 || negb (pausable g) then (g, [])
  else
    let g1 := set_pausable false g in
    let message := if o then "" else "paused" in
    if eqn (gameState g1) (-1) then
      (compensate now g1,
       ([WriteHighScores; FadeOut "#fork-ribbon"]
          ++ (if helpVisible then [FadeOut "#helpScreen"] else [])
          ++ [FadeOut ".helpText"; FadeOut "#overlay"; HideText;
              SetTimeout ResumeSettled 400])%list)
    else if negb (eqn (gameState g1) (-2)) && negb (eqn (gameState g1) 0)
            && negb (eqn (gameState g1) 2) then
      (snapshot now g1,
       ([WriteHighScores; FadeIn ".helpText"]
          ++ (if message =? "paused" then [ShowText message] else [])
          ++ [FadeIn "#fork-ribbon"; FadeIn "#overlay";
              SetTimeout PauseSettled 400])%list)
    else (g1, [WriteHighScores]).

(** [handlePause] (initialization.js:479-483), the handler of the
    host's pause, back-button and menu-button events. *)
Definition handlePause (now : Z) (helpVisible : bool) (g : Game) : Game * list Effect :=
  if eqn (gameState g) 1 || eqn (gameState g) 2 then pause false now helpVisible g
  else (g, []).

(** The two timer callbacks of [pause] (lines 250-253 and 267-269). *)
Definition settle (cb : Callback) (g : Game) : Game :=
  match cb with
  | ResumeSettled =>
      {| gameState := prevGameState g; prevGameState := prevGameState g;
         pausable := true; score := score g; gameTimer := gameTimer g;
         gameTimerStartTime := gameTimerStartTime g;
         gameTimerPausedElapsed := gameTimerPausedElapsed g |}
  | PauseSettled => set_pausable true g
  | CheckSessionAndUpdateUI => g
  end.

(** The timers a trace has started. *)
Definition timers (t : list Effect) : list (Callback * Z) :=
  flat_map (fun e => match e with SetTimeout cb ms => [(cb, ms)] | _ => [] end) t.

(** Modelled from the spec: the game loop that recomputes the countdown
    on every tick is not among the source files.  Section 4.3 gives
    [remaining()] as the full duration while the timer is not started and
    [max(0, duration - (now - startedAt))] otherwise; the start time is in
    milliseconds and the countdown in seconds, as in [pause]. *)
Definition remaining (duration : Z) (now : Z) (g : Game) : Q :=
  match gameTimerStartTime g with
  | None => inject_Z duration
  | Some startTime =>
      Qmax 0 (inject_Z duration - (inject_Z now - startTime) / 1000)
  end.

(** *** submitScoreToFlutter (view.js:168-217) *)

(** Lines 177-189, for the integer duration and the countdown value. *)
Definition timeTaken (duration : Z) (timer : option Q) : Z :=
  let t :=
    match timer with
    | Some gt =>
        if negb (Qle_bool gt 0) then Qceiling (inject_Z duration - gt)
        else if Qle_bool gt 0 then duration
        else duration
    | None => duration
    end in
  Z.max 1 (Z.min duration t).

(** Lines 191-204. *)
Definition request (f : Flutter) (g : Game) : Request :=
  {| req_url := "http://192.168.29.71:5006/api/v1/game-pools/" ++ toString (poolId f)
                  ++ "/sessions/" ++ toString (sessionId f) ++ "/submit-score";
     req_method := "POST";
     req_headers := [("Content-Type", "application/json");
                     ("Authorization", "Bearer " ++ toString (authToken f))];
     req_score := score g;
     req_time := timeTaken (gameTimerDuration f) (gameTimer g) |}.

(** The synchronous part: the guard of line 169, then the request. *)
Definition submitScoreToFlutter (f : Flutter) (g : Game) : list Effect :=
  if negb (truthy (poolId f)) || negb (truthy (sessionId f)) || negb (truthy (authToken f))
  then [ConsoleLog "Flutter parameters not available. Score not submitted."]
  else [Fetch (request f g)].

(** What comes back from [fetch]. *)
Inductive FetchOutcome : Type :=
  | TransportFailure                     (* the promise of [fetch] rejects *)
  | Response (ok : bool) (status : Z) (json : option string).
      (* [json = None]: [response.json()] rejects, the body is not JSON *)

(** A settled promise: the effects of its handlers and its value,
    [None] when it is rejected. *)
Definition Promise (A : Type) : Type := (list Effect * option A)%type.

Definition then_ {A B} (p : Promise A) (k : A -> Promise B) : Promise B :=
  match snd p with
  | Some a => ((fst p ++ fst (k a))%list, snd (k a))
  | None => (fst p, None)
  end.

Definition catch_ {A} (p : Promise A) (h : unit -> Promise A) : Promise A :=
  match snd p with
  | Some _ => p
  | None => ((fst p ++ fst (h tt))%list, snd (h tt))
  end.

Definition fetched (o : FetchOutcome) : Promise (bool * option string) :=
  match o with
  | TransportFailure => ([], None)
  | Response ok _ json => ([], Some (ok, json))
  end.

(** Lines 205-216: the chain hung on the promise of [fetch]. *)
Definition submitScoreSettled (o : FetchOutcome) : Promise unit :=
  catch_
    (then_
       (then_ (fetched o)
          (fun response =>
             if negb (fst response) then ([], None)      (* throw new Error *)
             else ([], snd response)))                   (* response.json() *)
       (fun data => ([ConsoleLog "Score submitted successfully:"], Some tt)))
    (fun _ => ([ConsoleError "Error submitting score:"], Some tt)).

(** A game-over submission from start to end. *)
Definition submission (f : Flutter) (g : Game) (o : FetchOutcome) : list Effect :=
  match submitScoreToFlutter f g with
  | [Fetch r] => ([Fetch r] ++ fst (submitScoreSettled o))%list
  | t => t
  end.

Definition is_fetch (e : Effect) : bool :=
  match e with Fetch _ => true | _ => false end.

(** A message that reaches the host. *)
Definition is_host_message (e : Effect) : bool :=
  match e with PostMessage _ _ | CallHandler _ _ _ => true | _ => false end.

Definition host_messages (t : list Effect) : nat :=
  List.length (List.filter is_host_message t).

End View.

(* ================================================================= *)
(** ** A browser for the examples *)

Module Browser.

Definition hex_digit (c : ascii) : option Z :=
  let n := Z.of_N (N_of_ascii c) in
  if ((48 <=? n)%Z && (n <=? 57)%Z)%bool then Some (n - 48)
  else if ((65 <=? n)%Z && (n <=? 70)%Z)%bool then Some (n - 55)
  else if ((97 <=? n)%Z && (n <=? 102)%Z)%bool then Some (n - 87)
  else None.

Definition dec_digit (c : ascii) : option Z :=
  let n := Z.of_N (N_of_ascii c) in
  if ((48 <=? n)%Z && (n <=? 57)%Z)%bool then Some (n - 48) else None.

(** Percent-decoding, one byte for each escape; a [%] that two
    hexadecimal digits do not follow is the [URIError].  (The built-in
    also rejects escapes that are not well-formed UTF-8; the examples are
    ASCII.) *)
Fixpoint percent_decode (s : string) : option string :=
  match s with
  | EmptyString => Some EmptyString
  | String c rest =>
      if Ascii.eqb c "%" then
        match rest with
        | String a (String b rest') =>
            match hex_digit a, hex_digit b, percent_decode rest' with
            | Some x, Some y, Some r =>
                Some (String (ascii_of_N (Z.to_N (16 * x + y))) r)
            | _, _, _ => None
            end
        | _ => None
        end
      else option_map (String c) (percent_decode rest)
  end.

Definition is_space (c : ascii) : bool :=
  let n := N_of_ascii c in
  ((n =? 32)%N || ((9 <=? n)%N && (n <=? 13)%N))%bool.

Fixpoint skip_spaces (s : string) : string :=
  match s with
  | String c rest => if is_space c then skip_spaces rest else s
  | EmptyString => s
  end.

(** The longest run of digits in the radix, most significant first;
    [None] when there is no digit. *)
Fixpoint digits (digit : ascii -> option Z) (radix : Z) (acc : option Z) (s : string)
  : option Z :=
  match s with
  | EmptyString => acc
  | String c rest =>
      match digit c with
      | Some d =>
          digits digit radix
            (Some (match acc with Some a => a * radix + d | None => d end)) rest
      | None => acc
      end
  end.

Definition unsigned_int (s : string) : option Z :=
  if (prefix "0x" s || prefix "0X" s)%bool
  then digits hex_digit 16 None (substring 2 (String.length s - 2) s)
  else digits dec_digit 10 None s.

(** [parseInt] of a string: blanks, a sign, an optional [0x], digits. *)
Definition parse_int (s : string) : option Z :=
  match skip_spaces s with
  | String "-" rest => option_map Z.opp (unsigned_int rest)
  | String "+" rest => unsigned_int rest
  | t => unsigned_int t
  end.

Definition browser : Builtins := {|
  decodeURIComponent := percent_decode;
  parseInt := fun v =>
    match v with
    | JStr s => parse_int s
    | JNum n => Some n
    | JUndefined | JNull => None
    end
|}.

End Browser.

Import Init View.

(* ================================================================= *)
(** ** Examples of the model at work *)

Definition playing (start : Z) : Game := {|
  gameState := Some 1; prevGameState := None; pausable := true; score := 10;
  gameTimer := Some (7 # 2); gameTimerStartTime := Some (inject_Z start);
  gameTimerPausedElapsed := None
|}.

Definition readySession : Flutter := {|
  poolId := JStr "pool-1"; sessionId := JStr "sess-1"; authToken := JStr "tok-1";
  gameTimerDuration := 15; apiServerUrl := JStr "https://api.metaninza.net";
  sessionReady := true
|}.

Definition with_apiServerUrl (u : jsval) (f : Flutter) : Flutter := final (set_apiServerUrl u f).

(** The host has injected a session whose expiry time has passed; the
    query string names another session. *)
Definition expiredWindow : Window := {|
  GAME_SESSION := Some {|
    gs_sessionId := JStr "sess-1"; gs_token := JStr "tok-1"; gs_poolId := JStr "pool-1";
    gs_timerDuration := JNum 30; gs_timer := JUndefined;
    gs_apiServerUrl := JUndefined; gs_apiServer := JUndefined;
    gs_expiresAt := Some 1000 |};
  location_search := "?poolId=pool-9&sessionId=sess-9&authToken=tok-9";
  Date_now := 2000;
  in_frame := false;
  flutter_inappwebview := true;
  win_gameState := Some 0
|}.

(** No injected session; the query string asks for debug mode and
    names a pool. *)
Definition debugWindow : Window := {|
  GAME_SESSION := None;
  location_search := "?debug=true&poolId=real-pool";
  Date_now := 2000;
  in_frame := false;
  flutter_inappwebview := false;
  win_gameState := Some 0
|}.

(** No injected session; the query string asks for debug mode only. *)
Definition debugOnlyWindow : Window := {|
  GAME_SESSION := None;
  location_search := "?debug=true";
  Date_now := 2000;
  in_frame := false;
  flutter_inappwebview := false;
  win_gameState := Some 0
|}.

(** The game runs in a frame, no session is injected, the query string
    carries the whole identity. *)
Definition framedWindow : Window := {|
  GAME_SESSION := None;
  location_search := "?poolId=pool-9&sessionId=sess-9&authToken=tok-9";
  Date_now := 2000;
  in_frame := true;
  flutter_inappwebview := false;
  win_gameState := Some 0
|}.

(* ================================================================= *)
(** ** Further code of the two files *)

(** [easeOutCubic(t, b, c, d)] (view.js:2-4), in exact arithmetic: the
    assignment inside the product replaces [t] by [t / d - 1] before the
    two other factors read it. *)
Definition easeOutCubic (t b c d : Q) : Q :=
  let t := (t / d - 1)%Q in
  (c * (t * t * t + 1) + b)%Q.

(** One pause followed by one resume, each with the timer it starts:
    [pause] at [pausedAt], its 400 ms timer, [pause] again
    [pausedFor] milliseconds later, the timer of that call. *)
Record Cycle : Type := {
  pausedAt : Z;
  pausedFor : Z;
  pauseArg : bool;      (* the argument [o] of the pausing call *)
  resumeArg : bool;     (* the argument [o] of the resuming call *)
  helpAtPause : bool;   (* is #helpScreen visible at each call *)
  helpAtResume : bool
}.

Definition cycle (c : Cycle) (g : Game) : Game :=
  let paused := settle PauseSettled (fst (pause (pauseArg c) (pausedAt c) (helpAtPause c) g)) in
  settle ResumeSettled
    (fst (pause (resumeArg c) (pausedAt c + pausedFor c) (helpAtResume c) paused)).

Definition cycles (l : list Cycle) (g : Game) : Game :=
  fold_left (fun g c => cycle c g) l g.

Definition total_paused (l : list Cycle) : Z :=
  fold_right (fun c a => pausedFor c + a) 0 l.

(** What can happen to the session globals: the first call at document
    ready (initialization.js:183), a polling cycle (lines 167-180,
    started by timers and by the load, visibility and focus events), a
    call of [reinitFlutterSession], a message from the host. *)
Inductive Event : Type :=
  | DocumentReady (w : Window)
  | Poll (w : Window)
  | Reinit (w : Window)
  | HostMessage (gameState : option Z) (data : option MessageData).

Definition after `{Builtins} (e : Event) (s : Flutter) : Flutter :=
  match e with
  | DocumentReady w => final (initFlutterParams w s)
  | Poll w => final (checkSessionAndUpdateUI w s)
  | Reinit w => final (reinitFlutterSession w s)
  | HostMessage gameState data => final (onMessage gameState data s)
  end.

Definition history `{Builtins} (es : list Event) (s : Flutter) : Flutter :=
  fold_left (fun s e => after e s) es s.

Definition is_timer (e : Effect) : bool :=
  match e with SetTimeout _ _ => true | _ => false end.

Definition is_listener (e : Effect) : bool :=
  match e with AddMessageListener => true | _ => false end.

Definition is_fadeIn (e : Effect) : bool :=
  match e with FadeIn _ => true | _ => false end.





(** The start button after a return to the main menu: [setMainMenu]
    (view.js:124-130) and [startBtnHandler] (initialization.js:432-477). *)
Module Menu.

(** The values of [canRestart]: [1] (initialization.js:361), [false]
    and ['s'] (view.js:126, 128). *)
Inductive CanRestart : Type := RestartOne | RestartFalse | RestartS.

Definition allowed (c : CanRestart) : bool :=
  match c with RestartFalse => false | RestartOne | RestartS => true end.

Record Ui : Type := {
  ui_gameState : option Z;
  canRestart : CanRestart;
  importing : Z
}.

Inductive UiCallback : Type :=
  | RestartAllowed     (* view.js:127-129 *)
  | SwapListeners.     (* initialization.js:433-463 *)

(** The timers started and the functions of other files that are called. *)
Inductive UiEffect : Type :=
  | UiTimeout (cb : UiCallback) (ms : Z)
  | FadeOutSideBar
  | CallInit1
  | CallCheckVisualElements0
  | CallResumeGame.

Definition setMainMenu (u : Ui) : Ui * list UiEffect :=
  ({| ui_gameState := Some 4; canRestart := RestartFalse; importing := importing u |},
   [UiTimeout RestartAllowed 500]).

Definition fire (cb : UiCallback) (u : Ui) : Ui :=
  match cb with
  | RestartAllowed =>
      {| ui_gameState := ui_gameState u; canRestart := RestartS; importing := importing u |}
  | SwapListeners => u
  end.

(** [sideBarVisible] is [$('#openSideBar').is(':visible')]. *)
Definition startBtnHandler (sideBarVisible : bool) (u : Ui) : list UiEffect :=
  ([UiTimeout SwapListeners 5]
     ++ (if negb (allowed (canRestart u)) then []
         else (if sideBarVisible then [FadeOutSideBar] else [])
                ++ (if (importing u =? 1)%Z then [CallInit1; CallCheckVisualElements0]
                    else [CallResumeGame])))%list.

Definition starts_game (e : UiEffect) : bool :=
  match e with CallInit1 | CallResumeGame => true | _ => false end.

End Menu.

(** Games for the examples: in the state [k], pausable, timer started
    at [start]. *)
Definition inState (k : Z) (start : Z) : Game := {|
  gameState := Some k; prevGameState := None; pausable := true; score := 10;
  gameTimer := Some (7 # 2); gameTimerStartTime := Some (inject_Z start);
  gameTimerPausedElapsed := None
|}.

Definition aCycle (t p : Z) : Cycle := {|
  pausedAt := t; pausedFor := p; pauseArg := false; resumeArg := false;
  helpAtPause := false; helpAtResume := false
|}.

(** Host messages for the examples: one with empty fields, one with a
    whole identity. *)
Definition emptyMessage : MessageData := {|
  md_type := JStr "flutterParams"; md_poolId := JStr ""; md_sessionId := JStr "";
  md_authToken := JUndefined; md_timerDuration := JUndefined;
  md_apiServerUrl := JUndefined; md_apiServer := JUndefined
|}.

Definition fullMessage : MessageData := {|
  md_type := JStr "flutterParams"; md_poolId := JStr "pool-2";
  md_sessionId := JStr "sess-2"; md_authToken := JStr "tok-2";
  md_timerDuration := JNum 30; md_apiServerUrl := JUndefined;
  md_apiServer := JUndefined
|}.

(** A window in a frame with an empty query string and no injected
    session. *)
Definition debuglessWindow : Window := {|
  GAME_SESSION := None;
  location_search := "";
  Date_now := 2000;
  in_frame := true;
  flutter_inappwebview := false;
  win_gameState := Some 0
|}.

(** An expired injected session, with debug mode on in the query string. *)
Definition expiredDebugWindow : Window := {|
  GAME_SESSION := GAME_SESSION expiredWindow;
  location_search := "?debug=true&poolId=pool-9&sessionId=sess-9";
  Date_now := 2000;
  in_frame := false;
  flutter_inappwebview := true;
  win_gameState := Some 0
|}.

(** The injected session of [expiredWindow] before its expiry time, with
    another identity and [debug=true] in the query string. *)
Definition freshWindow : Window := {|
  GAME_SESSION := GAME_SESSION expiredWindow;
  location_search := "?debug=true&poolId=pool-9&sessionId=sess-9&authToken=tok-9";
  Date_now := 500;
  in_frame := false;
  flutter_inappwebview := true;
  win_gameState := Some 0
|}.

(* ================================================================= *)
(** ** Specifications over the monad *)

(** A Hoare triple for [M] with a postcondition for the normal end and
    one for the end by exception. *)
Definition triple {A} (P : Flutter -> Prop) (m : M A)
  (Q : A -> Flutter -> Prop) (E : Flutter -> Prop) : Prop :=
  forall s, P s ->
    match value (m s) with
    | Some a => Q a (final (m s))
    | None => E (final (m s))
    end.

(** A computation that sends no request for parameters. *)
Definition quiet {A} (m : M A) : Prop := forall s, requests (trace (m s)) = 0%nat.

(** A computation that leaves the globals as they are. *)
Definition readonly {A} (m : M A) : Prop := forall s, final (m s) = s.

(** Neither identity field is set. *)
Definition no_identity (s : Flutter) : Prop := sessionId s = JNull /\ authToken s = JNull.

(** A property of the globals that a computation keeps, however it ends. *)
Definition preserves {A} (P : Flutter -> Prop) (m : M A) : Prop :=
  forall s, P s -> P (final (m s)).

(** A computation none of whose effects satisfies [p]. *)
Definition avoids {A} (p : Effect -> bool) (m : M A) : Prop :=
  forall s, List.filter p (trace (m s)) = [].

(** The timer duration is not zero and the server address is set. *)
Definition configured (s : Flutter) : Prop :=
  gameTimerDuration s <> 0 /\ truthy (apiServerUrl s) = true.

(** Two states of the globals that differ at most in the readiness flag. *)
Definition same_but_ready (s t : Flutter) : Prop :=
  poolId s = poolId t /\ sessionId s = sessionId t /\ authToken s = authToken t
  /\ gameTimerDuration s = gameTimerDuration t /\ apiServerUrl s = apiServerUrl t.

(** The identity that a call leaves is the one of the query string. *)
Definition url_identity `{Builtins} (w : Window) (t : Flutter) : Prop :=
  exists qp qs qa,
    url_parameter "poolId" (location_search w) = Some qp
    /\ url_parameter "sessionId" (location_search w) = Some qs
    /\ url_parameter "authToken" (location_search w) = Some qa
    /\ poolId t = JStr qp /\ sessionId t = JStr qs /\ authToken t = JStr qa.

Example pause_at_5s :
  fst (pause false 6000 false (playing 1000)) =
  {| gameState := Some (-1); prevGameState := Some 1; pausable := false; score := 10;
     gameTimer := Some (7 # 2); gameTimerStartTime := Some (inject_Z 1000);
     gameTimerPausedElapsed := Some ((inject_Z 6000 - inject_Z 1000) / 1000)%Q |}.
Proof. reflexivity. Qed.

Example timeTaken_early : timeTaken 15 (Some (7 # 2)) = 12.
Proof. reflexivity. Qed.

Example timeTaken_instant : timeTaken 15 (Some 15%Q) = 1.
Proof. reflexivity. Qed.

Example timeTaken_expired : timeTaken 15 (Some 0%Q) = 15.
Proof. reflexivity. Qed.

(* ================================================================= *)
(** ** Properties of view.js *)

Section Timer.

Local Open Scope Q_scope.

Lemma remaining_eq (d : Z) (now now' : Z) (g g' : Game) (s s' : Q) :
  gameTimerStartTime g = Some s -> gameTimerStartTime g' = Some s' ->
  inject_Z now - s == inject_Z now' - s' ->
  remaining d now g == remaining d now' g'.
Proof.
  intros Hs Hs' E. unfold remaining. rewrite Hs, Hs'.
  apply Q.max_compat; [reflexivity|]. rewrite E. reflexivity.
Qed.

(** C1.  A timer is running in the playing state.  [pause] is called at
    time [t1] (the elapsed seconds are stored), the 400 ms timer of that
    call fires, and [pause] is called again at [t1 + p], [p >= 0] (the
    start time is moved by [p], the stored seconds are cleared).  Then
    the time elapsed since the start is the same at [t1 + p] as it was at
    [t1], and so is the remaining countdown, in exact arithmetic. *)
Theorem pause_resume_keeps_remaining
  (duration t1 p : Z) (o1 o2 help1 help2 : bool) (g : Game) (start : Q) :
  gameState g = Some 1%Z -> pausable g = true ->
  gameTimerStartTime g = Some start -> (0 <= p)%Z ->
  let g1 := fst (pause o1 t1 help1 g) in
  let g2 := fst (pause o2 (t1 + p) help2 (settle PauseSettled g1)) in
  gameTimerPausedElapsed g1 = Some ((inject_Z t1 - start) / 1000)
  /\ gameTimerPausedElapsed g2 = None
  /\ (exists start', gameTimerStartTime g2 = Some start'
                     /\ start' == start + inject_Z p
                     /\ inject_Z (t1 + p) - start' == inject_Z t1 - start)
  /\ remaining duration (t1 + p) g2 == remaining duration t1 g.
Proof.
  intros Hst Hp Hs _ g1 g2.
  destruct g as [gs pgs pa sc gt st pe]; simpl in Hst, Hp, Hs; subst.
  subst g1 g2. cbn.
  split; [reflexivity|]. split; [reflexivity|].
  assert (E : start + (inject_Z (t1 + p) - (start + (inject_Z t1 - start) / 1000 * 1000))
              == start + inject_Z p).
  { rewrite inject_Z_plus. field. }
  split.
  - eexists; split; [reflexivity|]. split; [exact E|].
    rewrite E, inject_Z_plus. ring.
  - change (remaining duration (t1 + p)
              (set_pausable false
                 {| gameState := Some (-1)%Z; prevGameState := Some 1%Z;
                    pausable := true; score := sc; gameTimer := gt;
                    gameTimerStartTime :=
                      Some (start + (inject_Z (t1 + p)
                                     - (start + (inject_Z t1 - start) / 1000 * 1000)));
                    gameTimerPausedElapsed := None |})
            == remaining duration t1
                 {| gameState := Some 1%Z; prevGameState := pgs; pausable := true;
                    score := sc; gameTimer := gt; gameTimerStartTime := Some start;
                    gameTimerPausedElapsed := pe |}).
    eapply remaining_eq; [reflexivity|reflexivity|].
    rewrite E, inject_Z_plus. ring.
Qed.

Lemma pause_resume_keeps_remaining_witness :
  remaining 15 (6000 + 3000)
    (fst (pause false (6000 + 3000) false
            (settle PauseSettled (fst (pause false 6000 false (playing 1000))))))
  == remaining 15 6000 (playing 1000).
Proof.
  refine (proj2 (proj2 (proj2
    (pause_resume_keeps_remaining 15 6000 3000 false false false false
       (playing 1000) (inject_Z 1000) eq_refl eq_refl eq_refl _)))).
  lia.
Defined.

End Timer.

Section PauseWindow.

Local Open Scope Z_scope.

Lemma pause_not_pausable o now help g :
  pausable g = false -> pause o now help g = (g, []).
Proof.
  intros H. unfold pause. rewrite H.
  rewrite orb_true_r. reflexivity.
Qed.

Lemma handlePause_not_pausable now help g :
  pausable g = false -> handlePause now help g = (g, []).
Proof.
  intros H. unfold handlePause.
  destruct (eqn (gameState g) 1 || eqn (gameState g) 2)%bool;
    [apply pause_not_pausable; exact H | reflexivity].
Qed.

(** C9.  While [pausable] is false, every call of [pause] and of the
    host's pause handler returns the globals as they are and starts no
    timer (nothing is queued).  A game in the playing state is paused and
    later resumed: each of the two calls clears [pausable] and starts one
    timer of 400 ms, so until that timer fires every further request is
    dropped.  When the timer of the pause fires the state is paused (-1)
    and [pausable] is set again; when the timer of the resume fires the
    state is playing (1) and [pausable] is set again. *)
Theorem transition_window_drops_requests
  (o1 o2 help1 help2 : bool) (t1 t2 : Z) (g : Game) :
  gameState g = Some 1 -> pausable g = true ->
  let paused := pause o1 t1 help1 g in
  let settled := settle PauseSettled (fst paused) in
  let resumed := pause o2 t2 help2 settled in
  (forall o now help g',
     pausable g' = false ->
     pause o now help g' = (g', []) /\ handlePause now help g' = (g', []))
  /\
  (pausable (fst paused) = false
   /\ timers (snd paused) = [(PauseSettled, 400)]
   /\ (forall o now help, pause o now help (fst paused) = (fst paused, []))
   /\ (forall now help, handlePause now help (fst paused) = (fst paused, []))
   /\ gameState settled = Some (-1) /\ pausable settled = true)
  /\
  (pausable (fst resumed) = false
   /\ gameState (fst resumed) = Some (-1)
   /\ timers (snd resumed) = [(ResumeSettled, 400)]
   /\ (forall o now help, pause o now help (fst resumed) = (fst resumed, []))
   /\ (forall now help, handlePause now help (fst resumed) = (fst resumed, []))
   /\ gameState (settle ResumeSettled (fst resumed)) = Some 1
   /\ pausable (settle ResumeSettled (fst resumed)) = true).
Proof.
  intros Hst Hp paused settled resumed.
  destruct g as [gs pgs pa sc gt st pe]; simpl in Hst, Hp; subst.
  assert (P1 : pausable (fst paused) = false) by reflexivity.
  assert (P2 : pausable (fst resumed) = false).
  { subst resumed settled paused. destruct st, pe; reflexivity. }
  split.
  { intros o now help g' Hg'. split;
      [apply pause_not_pausable|apply handlePause_not_pausable]; exact Hg'. }
  split.
  - split; [exact P1|].
    split. { subst paused. destruct o1; reflexivity. }
    split. { intros. apply pause_not_pausable. exact P1. }
    split. { intros. apply handlePause_not_pausable. exact P1. }
    split; reflexivity.
  - split; [exact P2|].
    split. { subst resumed settled paused. destruct st, pe; reflexivity. }
    split. { subst resumed settled paused. destruct help2; reflexivity. }
    split. { intros. apply pause_not_pausable. exact P2. }
    split. { intros. apply handlePause_not_pausable. exact P2. }
    subst resumed settled paused. destruct st, pe; split; reflexivity.
Qed.

Lemma transition_window_drops_requests_witness :
  pause false 6100 false (fst (pause false 6000 false (playing 1000)))
  = (fst (pause false 6000 false (playing 1000)), []).
Proof.
  destruct (transition_window_drops_requests false false false false 6000 9000
              (playing 1000) eq_refl eq_refl) as [_ [[_ [_ [H _]]] _]].
  exact (H false 6100 false).
Defined.

End PauseWindow.

Section ScoreSubmission.

Local Open Scope Z_scope.

Lemma submit_reaches_fetch f g r :
  In (Fetch r) (submitScoreToFlutter f g) -> r = request f g.
Proof.
  unfold submitScoreToFlutter.
  destruct (negb (truthy (poolId f)) || negb (truthy (sessionId f))
            || negb (truthy (authToken f)))%bool; simpl.
  - intros [H|[]]. discriminate H.
  - intros [H|[]]. injection H as <-. reflexivity.
Qed.

Lemma timeTaken_range d t : 1 <= d -> 1 <= timeTaken d t <= d.
Proof. intros H. unfold timeTaken. lia. Qed.

Lemma timeTaken_running d gt :
  (0 < gt)%Q -> timeTaken d (Some gt) = Z.max 1 (Z.min d (Qceiling (inject_Z d - gt))).
Proof.
  intros H. unfold timeTaken.
  destruct (Qle_bool gt 0) eqn:E; [|reflexivity].
  apply Qle_bool_iff in E. exfalso. exact (Qlt_not_le _ _ H E).
Qed.

Lemma timeTaken_reached_zero d gt :
  1 <= d -> (gt <= 0)%Q -> timeTaken d (Some gt) = d.
Proof.
  intros Hd H. unfold timeTaken.
  apply Qle_bool_iff in H. rewrite H. simpl. lia.
Qed.

(** C4.  With a timer duration of at least 1, the [time] of every
    request that [submitScoreToFlutter] hands to [fetch] is an integer
    between 1 and the duration.  It is the ceiling of the duration minus
    the countdown, clamped to that interval, when the countdown is above
    zero, and the duration when the countdown is zero or below (or was
    never set). *)
Theorem submitted_time_in_range (f : Flutter) (g : Game) (r : Request) :
  1 <= gameTimerDuration f ->
  In (Fetch r) (submitScoreToFlutter f g) ->
  1 <= req_time r <= gameTimerDuration f
  /\ match gameTimer g with
     | Some gt =>
         ((0 < gt)%Q ->
          req_time r = Z.max 1 (Z.min (gameTimerDuration f)
                                  (Qceiling (inject_Z (gameTimerDuration f) - gt))))
         /\ ((gt <= 0)%Q -> req_time r = gameTimerDuration f)
     | None => req_time r = gameTimerDuration f
     end.
Proof.
  intros Hd Hin. apply submit_reaches_fetch in Hin. subst r. simpl.
  split; [apply timeTaken_range; exact Hd|].
  destruct (gameTimer g) as [gt|].
  - split; intros H.
    + apply timeTaken_running; exact H.
    + apply timeTaken_reached_zero; assumption.
  - unfold timeTaken. lia.
Qed.

Lemma submitted_time_in_range_witness :
  1 <= req_time (request readySession (playing 1000)) <= 15.
Proof.
  refine (proj1 (submitted_time_in_range readySession (playing 1000)
                   (request readySession (playing 1000)) _ _)).
  - simpl. lia.
  - simpl. left. reflexivity.
Defined.

(** C5.  With an empty [sessionId] and an empty [authToken],
    [submitScoreToFlutter] only writes its line to the console: nothing
    is handed to [fetch], whatever the response would have been. *)
Theorem no_session_no_network_call (f : Flutter) (g : Game) (o : FetchOutcome) :
  truthy (sessionId f) = false -> truthy (authToken f) = false ->
  submitScoreToFlutter f g
    = [ConsoleLog "Flutter parameters not available. Score not submitted."]
  /\ submission f g o = submitScoreToFlutter f g
  /\ List.filter is_fetch (submission f g o) = [].
Proof.
  intros Hs Ha.
  assert (E : submitScoreToFlutter f g
              = [ConsoleLog "Flutter parameters not available. Score not submitted."]).
  { unfold submitScoreToFlutter. rewrite Hs. simpl.
    rewrite orb_true_r. reflexivity. }
  unfold submission. rewrite E. repeat split.
Qed.

Lemma no_session_no_network_call_witness :
  List.filter is_fetch (submission initialFlutter (playing 1000) TransportFailure) = [].
Proof.
  exact (proj2 (proj2 (no_session_no_network_call initialFlutter (playing 1000)
                         TransportFailure eq_refl eq_refl))).
Defined.

(** C10.  With a non-empty [sessionId] and [authToken] but an empty
    [poolId], [submitScoreToFlutter] again only writes its line to the
    console: no request, no message to the host, for any response. *)
Theorem empty_poolId_skips_submission (f : Flutter) (g : Game) (o : FetchOutcome) :
  truthy (sessionId f) = true -> truthy (authToken f) = true ->
  truthy (poolId f) = false ->
  submission f g o
    = [ConsoleLog "Flutter parameters not available. Score not submitted."]
  /\ List.filter is_fetch (submission f g o) = []
  /\ host_messages (submission f g o) = 0%nat.
Proof.
  intros _ _ Hp.
  assert (E : submission f g o
              = [ConsoleLog "Flutter parameters not available. Score not submitted."]).
  { unfold submission, submitScoreToFlutter. rewrite Hp. reflexivity. }
  rewrite E. repeat split.
Qed.

Lemma empty_poolId_skips_submission_witness :
  host_messages
    (submission (final (set_poolId (JStr "") readySession)) (playing 1000)
       (Response true 200 (Some "{}"))) = 0%nat.
Proof.
  exact (proj2 (proj2 (empty_poolId_skips_submission
                         (final (set_poolId (JStr "") readySession)) (playing 1000)
                         (Response true 200 (Some "{}")) eq_refl eq_refl eq_refl))).
Defined.

(** C2.  The address of the request does not depend on [apiServerUrl]:
    it starts with the literal of view.js:191.  For the ready session of
    the examples, whose [apiServerUrl] is the default of
    initialization.js:7, the request goes to 192.168.29.71:5006. *)
Theorem submit_url_ignores_apiServerUrl :
  (forall u f g, submitScoreToFlutter (with_apiServerUrl u f) g = submitScoreToFlutter f g)
  /\ apiServerUrl readySession = JStr "https://api.metaninza.net"
  /\ submitScoreToFlutter readySession (playing 1000)
     = [Fetch {| req_url := "http://192.168.29.71:5006/api/v1/game-pools/pool-1/sessions/sess-1/submit-score";
                 req_method := "POST";
                 req_headers := [("Content-Type", "application/json");
                                 ("Authorization", "Bearer tok-1")];
                 req_score := 10;
                 req_time := 12 |}].
Proof.
  split; [|split; reflexivity].
  intros u f g. reflexivity.
Qed.

(** C3.  Whatever comes back from [fetch], the handlers of
    [submitScoreToFlutter] write to the console only: the whole
    submission sends no message to the host, and the promise chain ends
    fulfilled (its last handler catches every rejection). *)
Theorem submit_outcome_never_notifies_host (f : Flutter) (g : Game) (o : FetchOutcome) :
  host_messages (submission f g o) = 0%nat
  /\ snd (submitScoreSettled o) = Some tt.
Proof.
  split.
  - unfold submission, submitScoreToFlutter.
    destruct (negb (truthy (poolId f)) || negb (truthy (sessionId f))
              || negb (truthy (authToken f)))%bool; [reflexivity|].
    destruct o as [|[|] status [json|]]; reflexivity.
  - destruct o as [|[|] status [json|]]; reflexivity.
Qed.

End ScoreSubmission.

(* ================================================================= *)
(** ** Properties of initialization.js *)

Section TripleRules.

Context {A B : Type}.

Lemma triple_bind (P : Flutter -> Prop) (m : M A) (Q : A -> Flutter -> Prop)
  (k : A -> M B) (R : B -> Flutter -> Prop) (E : Flutter -> Prop) :
  triple P m Q E -> (forall a, triple (Q a) (k a) R E) -> triple P (bind m k) R E.
Proof.
  intros Hm Hk s Hs. specialize (Hm s Hs). unfold bind.
  destruct (m s) as [[a|] s1 t1]; cbn [value final] in *; [|exact Hm].
  specialize (Hk a s1 Hm).
  destruct (k a s1) as [v s2 t2]; exact Hk.
Qed.

Lemma triple_weaken (P P' : Flutter -> Prop) (m : M A) (Q Q' : A -> Flutter -> Prop)
  (E E' : Flutter -> Prop) :
  triple P' m Q' E' -> (forall s, P s -> P' s) ->
  (forall a s, Q' a s -> Q a s) -> (forall s, E' s -> E s) -> triple P m Q E.
Proof.
  intros H HP HQ HE s Hs. specialize (H s (HP s Hs)).
  destruct (value (m s)); auto.
Qed.

Lemma triple_readonly (P : Flutter -> Prop) (m : M A) :
  readonly m -> triple P m (fun _ => P) P.
Proof.
  intros H s Hs. rewrite (H s). destruct (value (m s)); exact Hs.
Qed.

Lemma requests_app (t u : list Effect) :
  requests (t ++ u) = (requests t + requests u)%nat.
Proof. unfold requests. rewrite filter_app, length_app. reflexivity. Qed.

Lemma quiet_bind (m : M A) (k : A -> M B) :
  quiet m -> (forall a, quiet (k a)) -> quiet (bind m k).
Proof.
  intros Hm Hk s. unfold bind. specialize (Hm s).
  destruct (m s) as [[a|] s1 t1]; cbn [trace] in *; [|exact Hm].
  specialize (Hk a s1).
  destruct (k a s1) as [v s2 t2]; cbn [trace] in *.
  rewrite requests_app, Hm, Hk. reflexivity.
Qed.

Lemma readonly_bind (m : M A) (k : A -> M B) :
  readonly m -> (forall a, readonly (k a)) -> readonly (bind m k).
Proof.
  intros Hm Hk s. unfold bind. specialize (Hm s).
  destruct (m s) as [[a|] s1 t1]; cbn [final] in *; [|exact Hm].
  specialize (Hk a s1).
  destruct (k a s1) as [v s2 t2]; cbn [final] in *. congruence.
Qed.

End TripleRules.

Section Leaves.

Context `{Builtins}.

Lemma quiet_ret {A} (a : A) : quiet (ret a).
Proof. intros s. reflexivity. Qed.

Lemma quiet_throw {A} : quiet (@throw A).
Proof. intros s. reflexivity. Qed.

Lemma quiet_get : quiet get.
Proof. intros s. reflexivity. Qed.

Lemma quiet_modify f : quiet (modify f).
Proof. intros s. reflexivity. Qed.

Lemma quiet_emit e : is_request e = false -> quiet (emit e).
Proof. intros He s. unfold requests. simpl. rewrite He. reflexivity. Qed.

Lemma quiet_getUrlParameter w name : quiet (getUrlParameter w name).
Proof.
  unfold getUrlParameter. destruct (url_parameter name (location_search w)).
  - apply quiet_ret.
  - apply quiet_throw.
Qed.

Lemma readonly_ret {A} (a : A) : readonly (ret a).
Proof. intros s. reflexivity. Qed.

Lemma readonly_emit e : readonly (emit e).
Proof. intros s. reflexivity. Qed.

Lemma readonly_get : readonly get.
Proof. intros s. reflexivity. Qed.

Lemma readonly_getUrlParameter w name : readonly (getUrlParameter w name).
Proof.
  unfold getUrlParameter. destruct (url_parameter name (location_search w));
    intros st; reflexivity.
Qed.

End Leaves.

Create HintDb quiet.
#[local] Hint Resolve quiet_ret quiet_throw quiet_get quiet_modify quiet_getUrlParameter : quiet.
#[local] Hint Resolve readonly_ret readonly_emit readonly_get readonly_getUrlParameter : quiet.

(** Splits a goal [quiet m] or [readonly m] along the binds and the
    branches of [m]. *)
Ltac step_quiet :=
  repeat first
    [ apply quiet_bind; [|intros ?]
    | apply readonly_bind; [|intros ?]
    | apply quiet_emit; reflexivity
    | solve [auto with quiet]
    | progress unfold set_poolId, set_sessionId, set_authToken,
        set_gameTimerDuration, set_apiServerUrl, set_sessionReady
    | match goal with
      | |- context [if ?b then _ else _] => destruct b
      | |- context [match ?x with _ => _ end] => destruct x
      end ].

Section Polling.

Context `{Builtins}.

Lemma quiet_resolveSession w : quiet (resolveSession w).
Proof. unfold resolveSession, fromInjected, fromUrl. step_quiet. Qed.

Lemma quiet_listen w : quiet (listen w).
Proof. unfold listen. step_quiet. Qed.

Lemma quiet_debugBlock w : quiet (debugBlock w).
Proof. unfold debugBlock. step_quiet. Qed.

Lemma quiet_updateReady : quiet updateReady.
Proof. unfold updateReady. step_quiet. Qed.

End Polling.

(** Evaluates a computation of [M] on a symbolic state, splitting on
    every test it meets. *)
Ltac eval_m :=
  repeat progress unfold set_poolId, set_sessionId, set_authToken,
    set_gameTimerDuration, set_apiServerUrl, set_sessionReady,
    getUrlParameter, bind, ret, modify, emit, get, throw in *;
  cbn [value final trace poolId sessionId authToken gameTimerDuration
       apiServerUrl sessionReady] in *.

Ltac run_m :=
  eval_m;
  repeat (match goal with
          | |- context [url_parameter ?n ?q] => destruct (url_parameter n q) eqn:?
          | |- context [truthy ?v] => destruct (truthy v) eqn:?
          | |- context [is_undefined ?v] => destruct (is_undefined v) eqn:?
          | |- context [strict_eq_str ?v ?t] => destruct (strict_eq_str v t) eqn:?
          | |- context [has_session ?w] => destruct (has_session w) eqn:?
          | |- context [expired ?w ?g] => destruct (expired w g) eqn:?
          | |- context [in_frame ?w] => destruct (in_frame w) eqn:?
          | |- context [flutter_inappwebview ?w] =>
              destruct (flutter_inappwebview w) eqn:?
          end; cbn [value final trace poolId sessionId authToken gameTimerDuration
                    apiServerUrl sessionReady negb andb orb] in *).

Section Resolution.

Context `{Builtins}.

Lemma bind_assoc {A B C} (m : M A) (k : A -> M B) (h : B -> M C) (s : Flutter) :
  bind (bind m k) h s = bind m (fun a => bind (k a) h) s.
Proof.
  unfold bind. destruct (m s) as [[a|] s1 t1]; [|reflexivity].
  destruct (k a s1) as [[b|] s2 t2]; [|reflexivity].
  destruct (h b s2) as [v s3 t3]. rewrite app_assoc. reflexivity.
Qed.

Lemma bind_ext {A B} (m : M A) (k k' : A -> M B) (s : Flutter) :
  (forall a s', k a s' = k' a s') -> bind m k s = bind m k' s.
Proof.
  intros E. unfold bind. destruct (m s) as [[a|] s1 t1]; [|reflexivity].
  rewrite E. reflexivity.
Qed.

Lemma initFlutterParams_split w s :
  initFlutterParams w s
  = bind (resolved w) (fun _ => bind (debugBlock w) (fun _ => updateReady)) s.
Proof.
  unfold initFlutterParams, resolved.
  rewrite bind_assoc. apply bind_ext. intros _ s'.
  rewrite bind_assoc. reflexivity.
Qed.

Lemma requestParams_readonly w : readonly (requestParams w).
Proof. unfold requestParams. step_quiet. Qed.

Lemma listen_readonly w : readonly (listen w).
Proof. unfold listen. step_quiet. Qed.

Lemma fromInjected_expired w gs :
  expired w gs = true ->
  triple (fun _ => True) (fromInjected w gs) (fun _ => no_identity) no_identity.
Proof.
  intros He s _. unfold fromInjected, no_identity. rewrite He.
  run_m; split; reflexivity.
Qed.

Lemma debugBlock_inert w s :
  url_parameter "debug" (location_search w) <> Some "true" ->
  final (debugBlock w s) = s /\ trace (debugBlock w s) = [].
Proof.
  intros Hd. unfold debugBlock, getUrlParameter.
  destruct (url_parameter "debug" (location_search w)) as [d|] eqn:E.
  - assert (Hf : strict_eq_str (JStr d) "true" = false).
    { simpl. destruct (String.eqb_spec d "true") as [->|]; [|reflexivity].
      exfalso. apply Hd. reflexivity. }
    unfold bind, ret, get. cbn [value final trace]. rewrite Hf. simpl.
    split; reflexivity.
  - split; reflexivity.
Qed.

Lemma updateReady_no_identity :
  triple no_identity updateReady
    (fun _ s => no_identity s /\ sessionReady s = false) (fun _ => False).
Proof.
  intros s [Hi Ha]. unfold updateReady, no_identity.
  unfold bind, get. cbn [value final trace]. rewrite Hi, Ha. simpl.
  rewrite Hi, Ha. repeat split.
Qed.

Lemma requestParams_total w s : value (requestParams w s) = Some tt.
Proof. unfold requestParams. run_m; reflexivity. Qed.

Lemma triple_total_readonly {A} (P E : Flutter -> Prop) (m : M A) :
  readonly m -> (forall s, value (m s) <> None) -> triple P m (fun _ => P) E.
Proof.
  intros Hr Ht s Hs. rewrite (Hr s). specialize (Ht s).
  destruct (value (m s)); [exact Hs|congruence].
Qed.

Lemma initFlutterParams_expired w gs :
  GAME_SESSION w = Some gs -> expired w gs = true ->
  url_parameter "debug" (location_search w) <> Some "true" ->
  triple (fun _ => True) (initFlutterParams w)
    (fun _ s => no_identity s /\ sessionReady s = false) no_identity.
Proof.
  intros Hgs He Hd. unfold initFlutterParams.
  eapply triple_bind.
  { apply triple_total_readonly; [apply requestParams_readonly|].
    intros s. rewrite requestParams_total. discriminate. }
  intros ?. eapply triple_bind.
  { unfold resolveSession. rewrite Hgs. apply fromInjected_expired. exact He. }
  intros ?. eapply triple_bind.
  { apply triple_readonly. apply listen_readonly. }
  intros ?. eapply triple_bind.
  { intros s Hs. destruct (debugBlock_inert w s Hd) as [-> _].
    destruct (value (debugBlock w s)); exact Hs. }
  intros ?. eapply triple_weaken; [apply updateReady_no_identity| | |]; cbn; tauto.
Qed.

Lemma debug_then_ready w s qp qs qa :
  url_parameter "debug" (location_search w) = Some "true" ->
  truthy (sessionId s) = false -> truthy (authToken s) = false ->
  url_parameter "poolId" (location_search w) = Some qp ->
  url_parameter "sessionId" (location_search w) = Some qs ->
  url_parameter "authToken" (location_search w) = Some qa ->
  let r := bind (debugBlock w) (fun _ => updateReady) s in
  value r = Some tt
  /\ poolId (final r) = jor (JStr qp) (jor (poolId s) (JStr "test-pool-123"))
  /\ sessionId (final r) = jor (JStr qs) (JStr "test-session-456")
  /\ authToken (final r) = jor (JStr qa) (JStr "test-token-789")
  /\ sessionReady (final r) = true.
Proof.
  intros Hd Hs Ha Hp Hi Ht r. subst r.
  unfold debugBlock, updateReady. eval_m.
  rewrite Hd. cbn [value final trace strict_eq_str]. rewrite Hs, Ha.
  change ("true" =? "true") with true. cbn [negb andb value final trace].
  rewrite Hp. cbn [value final trace]. rewrite Hi. cbn [value final trace].
  rewrite Ht. cbn [value final trace sessionId authToken poolId sessionReady].
  assert (Si : truthy (jor (JStr qs) (jor (sessionId s) (JStr "test-session-456"))) = true).
  { unfold jor. rewrite Hs. destruct (truthy (JStr qs)) eqn:E; [exact E|reflexivity]. }
  assert (Sa : truthy (jor (JStr qa) (jor (authToken s) (JStr "test-token-789"))) = true).
  { unfold jor. rewrite Ha. destruct (truthy (JStr qa)) eqn:E; [exact E|reflexivity]. }
  rewrite Si, Sa. cbn [andb value final trace sessionId authToken poolId sessionReady].
  repeat split.
  - unfold jor at 2. rewrite Hs. reflexivity.
  - unfold jor at 2. rewrite Ha. reflexivity.
Qed.

Lemma requests_requestParams w s :
  requests (trace (requestParams w s))
  = if (negb (has_session w) && negb (truthy (sessionId s)) && negb (truthy (authToken s))
        && (in_frame w || flutter_inappwebview w))%bool
    then 1%nat else 0%nat.
Proof.
  unfold requestParams. run_m; reflexivity.
Qed.

Lemma requests_bind_quiet {A B} (m : M A) (k : A -> M B) s :
  (forall a, quiet (k a)) -> requests (trace (bind m k s)) = requests (trace (m s)).
Proof.
  intros Hk. unfold bind. destruct (m s) as [[a|] s1 t1]; cbn [trace]; [|reflexivity].
  specialize (Hk a s1). destruct (k a s1) as [v s2 t2]; cbn [trace] in *.
  rewrite requests_app, Hk. apply Nat.add_0_r.
Qed.

Lemma requests_initFlutterParams w s :
  requests (trace (initFlutterParams w s)) = requests (trace (requestParams w s)).
Proof.
  unfold initFlutterParams. apply requests_bind_quiet. intros _.
  apply quiet_bind; [apply quiet_resolveSession|intros _].
  apply quiet_bind; [apply quiet_listen|intros _].
  apply quiet_bind; [apply quiet_debugBlock|intros _].
  apply quiet_updateReady.
Qed.

Lemma bind_normal {A B} (m : M A) (k : A -> M B) s a :
  value (m s) = Some a ->
  value (bind m k s) = value (k a (final (m s)))
  /\ final (bind m k s) = final (k a (final (m s))).
Proof.
  unfold bind. destruct (m s) as [[a'|] s1 t1]; cbn [value final]; intros E;
    [injection E as ->|discriminate].
  destruct (k a s1); split; reflexivity.
Qed.

Lemma bind_get {A} (k : Flutter -> M A) s : bind get k s = k s s.
Proof. unfold bind, get. destruct (k s s). reflexivity. Qed.

Lemma requests_checkSessionAndUpdateUI w s :
  requests (trace (checkSessionAndUpdateUI w s)) = requests (trace (requestParams w s)).
Proof.
  rewrite <- requests_initFlutterParams.
  unfold checkSessionAndUpdateUI. rewrite bind_get.
  apply requests_bind_quiet. intros _. step_quiet.
Qed.

End Resolution.

Section SessionClaims.

Context `{Builtins}.

(** C6, as amended.  The injected object is present and its expiry time
    has passed, and the query string does not carry [debug=true].  After
    the poll both identity fields are [null], and when the poll ends
    normally the session is not ready - whatever identity the query
    string holds: it is not read for [sessionId] and [authToken]. *)
Theorem expired_session_is_unavailable (w : Window) (gs : GameSession) (st : Flutter) :
  GAME_SESSION w = Some gs -> expired w gs = true ->
  url_parameter "debug" (location_search w) <> Some "true" ->
  let r := initFlutterParams w st in
  sessionId (final r) = JNull /\ authToken (final r) = JNull
  /\ (value r = Some tt -> sessionReady (final r) = false).
Proof.
  intros Hgs He Hd r.
  pose proof (initFlutterParams_expired w gs Hgs He Hd st I) as T.
  fold r in T. destruct (value r) as [[]|].
  - destruct T as [[Hi Ha] Hr]. auto.
  - destruct T as [Hi Ha]. repeat split; try assumption. discriminate.
Qed.

(** C7, as amended.  First part: the query string carries [debug=true]
    and, after lines 21-107, [sessionId] and [authToken] are both falsy.
    When the three identity parameters of the query string decode, the
    poll ends normally with the session ready, each identity field being
    the query-string value when that is non-empty, else (for [poolId])
    the value already held when that is truthy, else the placeholder.
    Second part: when the [debug] parameter is absent from the query
    string, and more generally when its value is not [true], the debug
    block changes no global and has no effect. *)
Theorem debug_fills_missing_identity (w : Window) (st : Flutter) :
  (forall qp qs qa,
     url_parameter "debug" (location_search w) = Some "true" ->
     value (resolved w st) = Some tt ->
     truthy (sessionId (final (resolved w st))) = false ->
     truthy (authToken (final (resolved w st))) = false ->
     url_parameter "poolId" (location_search w) = Some qp ->
     url_parameter "sessionId" (location_search w) = Some qs ->
     url_parameter "authToken" (location_search w) = Some qa ->
     let r := initFlutterParams w st in
     value r = Some tt
     /\ poolId (final r)
        = jor (JStr qp) (jor (poolId (final (resolved w st))) (JStr "test-pool-123"))
     /\ sessionId (final r) = jor (JStr qs) (JStr "test-session-456")
     /\ authToken (final r) = jor (JStr qa) (JStr "test-token-789")
     /\ sessionReady (final r) = true)
  /\ (forall s,
        regex_exec "debug" (location_search w) = None ->
        final (debugBlock w s) = s /\ trace (debugBlock w s) = [])
  /\ (forall s,
        url_parameter "debug" (location_search w) <> Some "true" ->
        final (debugBlock w s) = s /\ trace (debugBlock w s) = []).
Proof.
  split; [|split].
  - intros qp qs qa Hd Hv Hs Ha Hp Hi Ht r.
    pose proof (debug_then_ready w (final (resolved w st)) qp qs qa
                  Hd Hs Ha Hp Hi Ht) as D.
    cbv zeta in D.
    set (d := bind (debugBlock w) (fun _ => updateReady) (final (resolved w st))) in D.
    assert (E : value r = value d /\ final r = final d).
    { subst r d. rewrite initFlutterParams_split.
      exact (bind_normal _ _ _ tt Hv). }
    destruct E as [-> ->]. exact D.
  - intros s Hd. apply debugBlock_inert.
    unfold url_parameter. rewrite Hd. discriminate.
  - intros s Hd. apply debugBlock_inert. exact Hd.
Qed.

(** C8, as amended.  One polling cycle sends the request for session
    parameters at most once, and it sends it exactly when no injected
    object exists, [sessionId] and [authToken] as the cycle finds them
    (left by earlier cycles or host messages, [null] at first) are both
    falsy, and there is a host to send to.  The query string of the
    cycle is read only afterwards. *)
Theorem request_at_most_once_per_cycle (w : Window) (st : Flutter) :
  let t := trace (checkSessionAndUpdateUI w st) in
  (requests t <= 1)%nat
  /\ (requests t = 1%nat <->
      GAME_SESSION w = None
      /\ truthy (sessionId st) = false /\ truthy (authToken st) = false
      /\ (in_frame w || flutter_inappwebview w)%bool = true).
Proof.
  intros t. subst t.
  rewrite requests_checkSessionAndUpdateUI, requests_requestParams.
  unfold has_session.
  destruct (GAME_SESSION w) as [gs|]; cbn [negb andb].
  - split; [lia|]. split; [discriminate|]. intros [E _]. discriminate E.
  - destruct (truthy (sessionId st)), (truthy (authToken st)),
      (in_frame w || flutter_inappwebview w)%bool; cbn [negb andb];
      (split; [lia|]); split; try discriminate; try tauto;
      intros (_ & A & B & C); discriminate.
Qed.

End SessionClaims.

Section SessionExamples.

Import Browser.

(** C6 as stated fails here: the injected session has expired and the
    query string holds a whole identity, yet the poll ends with no
    identity and the session not ready. *)
Lemma expired_session_ignores_query_identity :
  let r := @initFlutterParams browser expiredWindow initialFlutter in
  (exists gs, GAME_SESSION expiredWindow = Some gs /\ expired expiredWindow gs = true)
  /\ @url_parameter browser "sessionId" (location_search expiredWindow) = Some "sess-9"
  /\ @url_parameter browser "authToken" (location_search expiredWindow) = Some "tok-9"
  /\ value r = Some tt
  /\ sessionId (final r) = JNull /\ authToken (final r) = JNull
  /\ sessionReady (final r) = false.
Proof.
  cbv zeta. split; [eexists; split; reflexivity|]. repeat split.
Qed.

Lemma expired_session_is_unavailable_witness :
  sessionReady (final (@initFlutterParams browser expiredWindow initialFlutter)) = false.
Proof.
  refine (proj2 (proj2 (@expired_session_is_unavailable browser expiredWindow _
                          initialFlutter eq_refl eq_refl _)) eq_refl).
  vm_compute. discriminate.
Defined.

(** C7 as stated fails here: debug mode is on and neither [sessionId]
    nor [authToken] is resolved, yet [poolId] is the one of the query
    string, not the placeholder. *)
Lemma debug_keeps_query_poolId :
  let mid := @resolved browser debugWindow initialFlutter in
  let r := @initFlutterParams browser debugWindow initialFlutter in
  @url_parameter browser "debug" (location_search debugWindow) = Some "true"
  /\ truthy (sessionId (final mid)) = false
  /\ truthy (authToken (final mid)) = false
  /\ poolId (final r) = JStr "real-pool"
  /\ poolId (final r) <> JStr "test-pool-123"
  /\ sessionReady (final r) = true.
Proof.
  cbv zeta. repeat split. vm_compute. discriminate.
Qed.

Lemma debug_fills_missing_identity_witness :
  let r := @initFlutterParams browser debugOnlyWindow initialFlutter in
  value r = Some tt
  /\ poolId (final r) = JStr "test-pool-123"
  /\ sessionId (final r) = JStr "test-session-456"
  /\ authToken (final r) = JStr "test-token-789"
  /\ sessionReady (final r) = true.
Proof.
  exact (proj1 (@debug_fills_missing_identity browser debugOnlyWindow initialFlutter)
           "" "" "" eq_refl eq_refl eq_refl eq_refl eq_refl eq_refl eq_refl).
Defined.

(** C8 as stated fails here: on the first cycle the query string holds
    both identity fields (the cycle ends with the session ready), and the
    request is sent all the same. *)
Lemma request_sent_though_query_has_identity :
  let r := @checkSessionAndUpdateUI browser framedWindow initialFlutter in
  @url_parameter browser "sessionId" (location_search framedWindow) = Some "sess-9"
  /\ @url_parameter browser "authToken" (location_search framedWindow) = Some "tok-9"
  /\ requests (trace r) = 1%nat
  /\ sessionReady (final r) = true.
Proof. cbv zeta. repeat split. Qed.

Lemma request_at_most_once_per_cycle_witness :
  requests (trace (@checkSessionAndUpdateUI browser framedWindow initialFlutter)) = 1%nat.
Proof.
  apply (proj2 (@request_at_most_once_per_cycle browser framedWindow initialFlutter)).
  repeat split.
Defined.

End SessionExamples.

(* ================================================================= *)
(** ** Further properties of view.js *)

Section PauseMore.

Local Open Scope Z_scope.

Lemma eqn_true v n : eqn v n = true -> v = Some n.
Proof.
  destruct v as [m|]; simpl; [|discriminate].
  intros E. apply Z.eqb_eq in E. subst. reflexivity.
Qed.

Lemma eqn_false v n : eqn v n = false -> v <> Some n.
Proof.
  intros E ->. simpl in E. rewrite Z.eqb_refl in E. discriminate.
Qed.

(** X1.  The host's pause handler acts only on a game that is playing
    and pausable: in every other state, also in the game-over state that
    its own test lets through, it returns the globals as they are and
    starts no timer. *)
Theorem handlePause_only_when_playing (now : Z) (help : bool) (g : Game) :
  gameState g <> Some 1 \/ pausable g = false ->
  handlePause now help g = (g, []).
Proof.
  intros [Hs|Hp].
  - unfold handlePause.
    destruct (eqn (gameState g) 1) eqn:E1.
    { exfalso. apply Hs. apply eqn_true. exact E1. }
    destruct (eqn (gameState g) 2) eqn:E2; [|reflexivity].
    simpl. unfold pause. rewrite E2. rewrite orb_true_r. reflexivity.
  - apply handlePause_not_pausable. exact Hp.
Qed.

Lemma handlePause_only_when_playing_witness :
  handlePause 6000 false (inState 2 1000) = (inState 2 1000, []).
Proof.
  apply handlePause_only_when_playing. left. discriminate.
Defined.

(** X2.  Every call of [pause] does one of three things: it is dropped
    (the globals are returned as they are, no effect); or it pauses or
    resumes, leaving the state at -1 with [pausable] cleared and exactly
    one timer of 400 ms started; or, in the state -2, it clears
    [pausable] and starts no timer at all. *)
Theorem pause_trichotomy (o : bool) (now : Z) (help : bool) (g : Game) :
  let r := pause o now help g in
  (r = (g, [])
   /\ (gameState g = Some 0 \/ gameState g = Some 2 \/ pausable g = false))
  \/ (exists cb, timers (snd r) = [(cb, 400)]
                 /\ pausable (fst r) = false /\ gameState (fst r) = Some (-1))
  \/ (gameState g = Some (-2)
      /\ pausable (fst r) = false /\ timers (snd r) = []
      /\ gameState (fst r) = Some (-2)).
Proof.
  intros r. subst r. unfold pause.
  destruct (eqn (gameState g) 0) eqn:E0.
  { left. split; [reflexivity|]. left. apply eqn_true. exact E0. }
  destruct (eqn (gameState g) 2) eqn:E2.
  { left. split; [reflexivity|]. right. left. apply eqn_true. exact E2. }
  destruct (pausable g) eqn:Ep.
  2:{ left. split; [reflexivity|]. right. right. reflexivity. }
  cbn [orb negb]. cbn [set_pausable gameState].
  destruct (eqn (gameState g) (-1)) eqn:E1.
  - right. left. exists ResumeSettled. cbn [fst snd]. apply eqn_true in E1.
    split; [destruct help; reflexivity|].
    unfold compensate. cbn [set_pausable gameTimerPausedElapsed gameTimerStartTime
                             prevGameState gameState pausable].
    destruct (gameTimerPausedElapsed g), (gameTimerStartTime g),
      (eqn (prevGameState g) 1); split; (reflexivity || exact E1).
  - destruct (eqn (gameState g) (-2)) eqn:E3; cbn [negb andb].
    + right. right. apply eqn_true in E3. repeat split; assumption.
    + rewrite E0, E2. cbn [negb andb].
      right. left. exists PauseSettled. cbn [fst snd].
      split; [destruct o; reflexivity|]. split; reflexivity.
Qed.

(** X3.  A call of [pause] in the state -2 on a pausable game leaves a
    game on which every later call of [pause] and of the host's pause
    handler is dropped: [pausable] is cleared and no timer was started
    that would set it again. *)
Theorem pause_in_state_minus2_sticks (o : bool) (now : Z) (help : bool) (g : Game) :
  gameState g = Some (-2) -> pausable g = true ->
  let g' := fst (pause o now help g) in
  timers (snd (pause o now help g)) = []
  /\ forall o' now' help',
       pause o' now' help' g' = (g', []) /\ handlePause now' help' g' = (g', []).
Proof.
  intros Hs Hp g'.
  assert (E : pause o now help g = (set_pausable false g, [WriteHighScores])).
  { unfold pause. rewrite Hs, Hp. cbn [set_pausable gameState]. rewrite Hs.
    reflexivity. }
  subst g'. rewrite E. cbn [fst snd]. split; [reflexivity|].
  intros o' now' help'. split.
  - apply pause_not_pausable. reflexivity.
  - apply handlePause_not_pausable. reflexivity.
Qed.

Lemma pause_in_state_minus2_sticks_witness :
  timers (snd (pause false 6000 false (inState (-2) 1000))) = [].
Proof.
  exact (proj1 (pause_in_state_minus2_sticks false 6000 false (inState (-2) 1000)
                  eq_refl eq_refl)).
Defined.

(** X4.  [pause] never changes the score or the countdown value, and it
    changes the start time of the timer only when it resumes (state -1). *)
Theorem pause_keeps_score_and_countdown (o : bool) (now : Z) (help : bool) (g : Game) :
  let g' := fst (pause o now help g) in
  score g' = score g /\ gameTimer g' = gameTimer g
  /\ (gameState g <> Some (-1) -> gameTimerStartTime g' = gameTimerStartTime g).
Proof.
  intros g'. subst g'. unfold pause.
  destruct (eqn (gameState g) 0 || eqn (gameState g) 2 || negb (pausable g))%bool.
  { repeat split. }
  cbn [set_pausable gameState].
  destruct (eqn (gameState g) (-1)) eqn:E1.
  - cbn [fst]. unfold compensate.
    cbn [set_pausable gameTimerPausedElapsed gameTimerStartTime prevGameState].
    apply eqn_true in E1.
    destruct (gameTimerPausedElapsed g), (gameTimerStartTime g),
      (eqn (prevGameState g) 1); repeat split; intros Hn; contradiction.
  - destruct (negb (eqn (gameState g) (-2)) && negb (eqn (gameState g) 0)
              && negb (eqn (gameState g) 2))%bool; repeat split.
Qed.

(** X5.  A game paused from a state other than playing (and other than
    0, 2, -1, -2) while its timer runs is resumed without compensation:
    after the cycle the state is the one it had, the start time of the
    timer is unchanged and the elapsed seconds stored by the pause are
    still set. *)
Theorem cycle_outside_play_is_not_compensated (c : Cycle) (g : Game) (k : Z) (start : Q) :
  gameState g = Some k ->
  k <> 0 -> k <> 2 -> k <> -1 -> k <> -2 -> k <> 1 ->
  pausable g = true -> gameTimerStartTime g = Some start ->
  gameState (cycle c g) = Some k
  /\ pausable (cycle c g) = true
  /\ gameTimerStartTime (cycle c g) = Some start
  /\ gameTimerPausedElapsed (cycle c g)
     = Some ((inject_Z (pausedAt c) - start) / 1000)%Q.
Proof.
  intros Hs H0 H2 H1 Hm Hp1 Hp Hst.
  destruct g as [gs pgs pa sc gt st pe]. cbn in Hs, Hp, Hst. subst.
  unfold cycle, pause. cbn [gameState pausable eqn].
  apply Z.eqb_neq in H0, H2, H1, Hm, Hp1.
  rewrite H0, H2. cbn [orb negb set_pausable gameState eqn]. rewrite H1, Hm, H0, H2.
  cbn [negb andb fst snapshot settle set_pausable gameState pausable eqn orb
       prevGameState gameTimerStartTime gameTimerPausedElapsed score gameTimer].
  change (-1 =? 0) with false. change (-1 =? 2) with false.
  change (-1 =? -1) with true.
  cbn [negb andb orb fst compensate settle set_pausable gameState pausable eqn
       prevGameState gameTimerStartTime gameTimerPausedElapsed score gameTimer].
  unfold compensate, snapshot, set_pausable.
  cbn [prevGameState pausable gameTimerStartTime gameTimerPausedElapsed gameState eqn].
  rewrite Hp1. cbn [prevGameState pausable gameTimerStartTime gameTimerPausedElapsed].
  repeat split.
Qed.

Lemma cycle_outside_play_is_not_compensated_witness :
  gameTimerStartTime (cycle (aCycle 6000 3000) (inState 4 1000)) = Some (inject_Z 1000).
Proof.
  refine (proj1 (proj2 (proj2
    (cycle_outside_play_is_not_compensated (aCycle 6000 3000) (inState 4 1000) 4
       (inject_Z 1000) eq_refl _ _ _ _ _ eq_refl eq_refl))));
    discriminate.
Defined.

End PauseMore.

Section CyclesOfPause.

Local Open Scope Q_scope.

Lemma cycle_playing (c : Cycle) (g : Game) (start : Q) :
  gameState g = Some 1%Z -> pausable g = true -> gameTimerStartTime g = Some start ->
  gameState (cycle c g) = Some 1%Z /\ pausable (cycle c g) = true
  /\ score (cycle c g) = score g /\ gameTimer (cycle c g) = gameTimer g
  /\ gameTimerPausedElapsed (cycle c g) = None
  /\ exists start', gameTimerStartTime (cycle c g) = Some start'
                    /\ start' == start + inject_Z (pausedFor c).
Proof.
  intros Hs Hp Hst.
  destruct g as [gs pgs pa sc gt st pe]. cbn in Hs, Hp, Hst. subst.
  unfold cycle. cbn.
  repeat (split; [reflexivity|]).
  eexists. split; [reflexivity|].
  rewrite inject_Z_plus. field.
Qed.

Lemma cycles_cons (c : Cycle) (l : list Cycle) (g : Game) :
  cycles (c :: l) g = cycles l (cycle c g).
Proof. reflexivity. Qed.

(** X6.  A playing, pausable game with a running timer goes through any
    number of pause/resume cycles (each call followed by its 400 ms
    timer).  Afterwards it is playing and pausable again with the same
    score and countdown value, and the start time of the timer has moved
    by the sum of the pauses: the time elapsed since the start, read that
    much later, is what it would be without the pauses. *)
Theorem cycles_shift_start (l : list Cycle) (g : Game) (start : Q) :
  gameState g = Some 1%Z -> pausable g = true -> gameTimerStartTime g = Some start ->
  gameState (cycles l g) = Some 1%Z /\ pausable (cycles l g) = true
  /\ score (cycles l g) = score g /\ gameTimer (cycles l g) = gameTimer g
  /\ exists start', gameTimerStartTime (cycles l g) = Some start'
       /\ start' == start + inject_Z (total_paused l)
       /\ forall now : Z,
            inject_Z (now + total_paused l) - start' == inject_Z now - start.
Proof.
  revert g start. induction l as [|c l IH]; intros g start Hs Hp Hst.
  - cbn. repeat (split; [assumption || reflexivity|]).
    exists start. split; [exact Hst|]. split; [ring|].
    intros now. rewrite Z.add_0_r. reflexivity.
  - rewrite cycles_cons.
    destruct (cycle_playing c g start Hs Hp Hst)
      as (Cs & Cp & Csc & Cgt & _ & s1 & Cst & E1).
    destruct (IH (cycle c g) s1 Cs Cp Cst) as (Is & Ip & Isc & Igt & s2 & Ist & E2 & _).
    split; [exact Is|]. split; [exact Ip|].
    split; [congruence|]. split; [congruence|].
    exists s2. split; [exact Ist|].
    assert (E : s2 == start + inject_Z (total_paused (c :: l))).
    { cbn [total_paused fold_right]. fold (total_paused l).
      rewrite E2, E1, inject_Z_plus. ring. }
    split; [exact E|].
    intros now. rewrite E, inject_Z_plus. ring.
Qed.

Lemma cycles_shift_start_witness :
  gameState (cycles [aCycle 6000 3000; aCycle 12000 500] (playing 1000)) = Some 1%Z.
Proof.
  exact (proj1 (cycles_shift_start [aCycle 6000 3000; aCycle 12000 500]
                  (playing 1000) (inject_Z 1000) eq_refl eq_refl eq_refl)).
Defined.

End CyclesOfPause.

Section TimeTakenMore.

Local Open Scope Z_scope.

(** X7.  The more of the countdown is left, the smaller the reported
    time: for a duration of at least 1, [timeTaken] is antitone in the
    countdown value (a countdown at or below zero reports the whole
    duration). *)
Theorem timeTaken_antitone (d : Z) (gt1 gt2 : Q) :
  1 <= d -> (gt1 <= gt2)%Q ->
  timeTaken d (Some gt2) <= timeTaken d (Some gt1).
Proof.
  intros Hd Hle. unfold timeTaken.
  destruct (Qle_bool gt1 0) eqn:E1; destruct (Qle_bool gt2 0) eqn:E2; cbn [negb].
  - lia.
  - lia.
  - exfalso. apply Qle_bool_iff in E2.
    assert (H1 : (gt1 <= 0)%Q) by (eapply Qle_trans; eassumption).
    apply Qle_bool_iff in H1. congruence.
  - assert (C : Qceiling (inject_Z d - gt2) <= Qceiling (inject_Z d - gt1)).
    { apply Qceiling_resp_le. lra. }
    lia.
Qed.

Lemma timeTaken_antitone_witness : timeTaken 15 (Some 10%Q) <= timeTaken 15 (Some (7 # 2)).
Proof.
  apply timeTaken_antitone; [lia|]. unfold Qle. simpl. lia.
Defined.

(** X8.  While the countdown is strictly between zero and the duration,
    the reported time is the elapsed time rounded up: never less than
    the duration minus the countdown, and less than one second more. *)
Theorem timeTaken_rounds_up (d : Z) (gt : Q) :
  (0 < gt)%Q -> (gt < inject_Z d)%Q ->
  (inject_Z d - gt <= inject_Z (timeTaken d (Some gt)))%Q
  /\ (inject_Z (timeTaken d (Some gt)) < inject_Z d - gt + 1)%Q.
Proof.
  intros H0 Hd. rewrite (timeTaken_running d gt H0).
  set (x := (inject_Z d - gt)%Q).
  assert (Hx0 : (0 < x)%Q) by (unfold x; lra).
  assert (Hxd : (x < inject_Z d)%Q) by (unfold x; lra).
  pose proof (Qle_ceiling x) as Hc1.
  pose proof (Qceiling_lt x) as Hc2.
  assert (L : 1 <= Qceiling x).
  { assert (Q0 : (inject_Z 0 < inject_Z (Qceiling x))%Q).
    { eapply Qlt_le_trans; [exact Hx0|exact Hc1]. }
    rewrite <- Zlt_Qlt in Q0. lia. }
  assert (U : Qceiling x <= d).
  { assert (Q1 : (inject_Z (Qceiling x - 1) < inject_Z d)%Q).
    { eapply Qlt_trans; [exact Hc2|exact Hxd]. }
    rewrite <- Zlt_Qlt in Q1. lia. }
  replace (Z.max 1 (Z.min d (Qceiling x))) with (Qceiling x) by lia.
  split; [exact Hc1|].
  unfold Z.sub in Hc2. rewrite inject_Z_plus in Hc2.
  change (inject_Z (Z.opp 1)) with (-(1))%Q in Hc2. unfold x in *. lra.
Qed.

Lemma timeTaken_rounds_up_witness :
  (inject_Z 15 - (7 # 2) <= inject_Z (timeTaken 15 (Some (7 # 2))))%Q.
Proof.
  refine (proj1 (timeTaken_rounds_up 15 (7 # 2) _ _)); reflexivity.
Defined.

(** X9.  With a timer duration below 1 (zero cannot occur, a negative
    one can) the reported time is 1 whatever the countdown: the lower
    clamp wins over the upper one, so the time exceeds the duration. *)
Theorem timeTaken_short_duration (d : Z) (t : option Q) :
  d < 1 -> timeTaken d t = 1.
Proof. intros H. unfold timeTaken. lia. Qed.

Lemma timeTaken_short_duration_witness : timeTaken (-5) (Some (7 # 2)) = 1.
Proof. apply timeTaken_short_duration. lia. Defined.

End TimeTakenMore.

Section SubmissionMore.

(** X10.  Whatever the response, a submission hands at most one request
    to [fetch] - exactly one when [poolId], [sessionId] and [authToken]
    are all truthy, none otherwise: no outcome leads to a second attempt. *)
Theorem submission_fetches_at_most_once (f : Flutter) (g : Game) (o : FetchOutcome) :
  List.length (List.filter is_fetch (submission f g o))
  = if (truthy (poolId f) && truthy (sessionId f) && truthy (authToken f))%bool
    then 1%nat else 0%nat.
Proof.
  unfold submission, submitScoreToFlutter.
  destruct (truthy (poolId f)), (truthy (sessionId f)), (truthy (authToken f));
    cbn [negb orb andb]; try reflexivity.
  destruct o as [|[|] status [json|]]; reflexivity.
Qed.

(** X11.  The handlers of the response write exactly one console line:
    the success line when the response is ok and its body parses as
    JSON, the error line in every other case (status not ok, body not
    JSON, transport failure). *)
Theorem submitScoreSettled_lines (o : FetchOutcome) :
  fst (submitScoreSettled o)
  = match o with
    | Response true _ (Some _) => [ConsoleLog "Score submitted successfully:"]
    | _ => [ConsoleError "Error submitting score:"]
    end.
Proof. destruct o as [|[|] status [json|]]; reflexivity. Qed.

End SubmissionMore.

(* ================================================================= *)
(** ** Further properties of initialization.js *)

Section PreservesRules.

Context `{Builtins}.

Lemma preserves_bind {A B} (P : Flutter -> Prop) (m : M A) (k : A -> M B) :
  preserves P m -> (forall a, preserves P (k a)) -> preserves P (bind m k).
Proof.
  intros Hm Hk s Hs. unfold bind. specialize (Hm s Hs).
  destruct (m s) as [[a|] s1 t1]; cbn [final] in *; [|exact Hm].
  specialize (Hk a s1 Hm). destruct (k a s1) as [v s2 t2]. exact Hk.
Qed.

Lemma preserves_readonly {A} (P : Flutter -> Prop) (m : M A) :
  readonly m -> preserves P m.
Proof. intros Hr s Hs. rewrite Hr. exact Hs. Qed.

Lemma preserves_modify (P : Flutter -> Prop) f :
  (forall s, P s -> P (f s)) -> preserves P (modify f).
Proof. intros Hf s Hs. apply Hf. exact Hs. Qed.

Lemma readonly_throw {A} : readonly (@throw A).
Proof. intros s. reflexivity. Qed.

Lemma avoids_bind {A B} p (m : M A) (k : A -> M B) :
  avoids p m -> (forall a, avoids p (k a)) -> avoids p (bind m k).
Proof.
  intros Hm Hk s. unfold bind. specialize (Hm s).
  destruct (m s) as [[a|] s1 t1]; cbn [trace] in *; [|exact Hm].
  specialize (Hk a s1). destruct (k a s1) as [v s2 t2]; cbn [trace] in *.
  rewrite filter_app, Hm, Hk. reflexivity.
Qed.

Lemma avoids_ret {A} p (a : A) : avoids p (ret a).
Proof. intros s. reflexivity. Qed.

Lemma avoids_throw {A} p : avoids p (@throw A).
Proof. intros s. reflexivity. Qed.

Lemma avoids_get p : avoids p get.
Proof. intros s. reflexivity. Qed.

Lemma avoids_modify p f : avoids p (modify f).
Proof. intros s. reflexivity. Qed.

Lemma avoids_emit p e : p e = false -> avoids p (emit e).
Proof. intros He s. cbn. rewrite He. reflexivity. Qed.

Lemma avoids_getUrlParameter p w name : avoids p (getUrlParameter w name).
Proof.
  unfold getUrlParameter. destruct (url_parameter name (location_search w)).
  - apply avoids_ret.
  - apply avoids_throw.
Qed.

Lemma parseInt_or_15_nonzero v : parseInt_or_15 v <> 0.
Proof.
  unfold parseInt_or_15. destruct (parseInt v) as [n|]; [|discriminate].
  destruct (Z.eqb_spec n 0); [discriminate|assumption].
Qed.

Lemma truthy_jor a b : truthy (jor a b) = (truthy a || truthy b)%bool.
Proof. unfold jor. destruct (truthy a) eqn:E; [exact E|reflexivity]. Qed.

End PreservesRules.

#[local] Hint Resolve readonly_throw : quiet.
#[local] Hint Resolve avoids_ret avoids_throw avoids_get avoids_modify
  avoids_getUrlParameter : quiet.

(** Splits a goal [preserves P m] or [avoids p m] along the binds and
    the branches of [m], leaving the assignments. *)
Ltac step_m :=
  repeat first
    [ apply preserves_bind; [|intros ?]
    | apply avoids_bind; [|intros ?]
    | apply avoids_emit; reflexivity
    | apply preserves_readonly; solve [auto with quiet]
    | solve [auto with quiet]
    | progress unfold set_poolId, set_sessionId, set_authToken,
        set_gameTimerDuration, set_apiServerUrl, set_sessionReady
    | match goal with
      | |- preserves _ (if ?b then _ else _) => destruct b eqn:?
      | |- preserves _ (match ?x with _ => _ end) => destruct x eqn:?
      | |- avoids _ (if ?b then _ else _) => destruct b
      | |- avoids _ (match ?x with _ => _ end) => destruct x
      end ].

Ltac keep_configured :=
  apply preserves_modify; intros ? [? ?]; split;
  cbn [gameTimerDuration apiServerUrl];
  first [ assumption | apply parseInt_or_15_nonzero
        | rewrite truthy_jor; assumption ].

Section Configured.

Context `{Builtins}.

Lemma configured_initFlutterParams w : preserves configured (initFlutterParams w).
Proof.
  unfold initFlutterParams, requestParams, resolveSession, fromInjected, fromUrl,
    listen, debugBlock, updateReady.
  step_m; keep_configured.
Qed.

Lemma configured_checkSessionAndUpdateUI w :
  preserves configured (checkSessionAndUpdateUI w).
Proof.
  unfold checkSessionAndUpdateUI.
  apply preserves_bind; [apply preserves_readonly, readonly_get|intros ?].
  apply preserves_bind; [apply configured_initFlutterParams|intros ?].
  step_m.
Qed.

Lemma configured_reinitFlutterSession w :
  preserves configured (reinitFlutterSession w).
Proof.
  unfold reinitFlutterSession.
  apply preserves_bind; [apply configured_initFlutterParams|intros ?].
  step_m.
Qed.

Lemma configured_onMessage gs data : preserves configured (onMessage gs data).
Proof. unfold onMessage. step_m; keep_configured. Qed.

(** X12.  After any sequence of calls of [initFlutterParams], polling
    cycles, calls of [reinitFlutterSession] and host messages, whatever
    the windows and messages and however the calls end, the timer
    duration is not zero and the server address is truthy. *)
Theorem session_globals_stay_configured (es : list Event) :
  gameTimerDuration (history es initialFlutter) <> 0
  /\ truthy (apiServerUrl (history es initialFlutter)) = true.
Proof.
  assert (G : forall s, configured s -> configured (history es s)).
  { induction es as [|e es IH]; intros s Hs; [exact Hs|].
    cbn [history fold_left]. apply IH. destruct e; cbn [after].
    - apply configured_initFlutterParams. exact Hs.
    - apply configured_checkSessionAndUpdateUI. exact Hs.
    - apply configured_reinitFlutterSession. exact Hs.
    - apply configured_onMessage. exact Hs. }
  apply G. split; [discriminate|reflexivity].
Qed.

End Configured.

Section Readiness.

Context `{Builtins}.

Lemma triple_any {A} (P : Flutter -> Prop) (m : M A) :
  triple P m (fun _ _ => True) (fun _ => True).
Proof. intros s _. destruct (value (m s)); exact I. Qed.

Lemma updateReady_agrees (P : Flutter -> Prop) :
  triple P updateReady
    (fun _ s => sessionReady s = (truthy (sessionId s) && truthy (authToken s))%bool)
    (fun _ => False).
Proof.
  intros s _. unfold updateReady. rewrite bind_get.
  destruct (truthy (sessionId s) && truthy (authToken s))%bool eqn:E;
    eval_m; rewrite E; reflexivity.
Qed.

Lemma initFlutterParams_agrees w :
  triple (fun _ => True) (initFlutterParams w)
    (fun _ s => sessionReady s = (truthy (sessionId s) && truthy (authToken s))%bool)
    (fun _ => True).
Proof.
  unfold initFlutterParams.
  eapply triple_bind; [apply triple_any|intros ?].
  eapply triple_bind; [apply triple_any|intros ?].
  eapply triple_bind; [apply triple_any|intros ?].
  eapply triple_bind; [apply triple_any|intros ?].
  eapply triple_weaken; [apply (updateReady_agrees (fun _ => True))| | |]; cbn; tauto.
Qed.

(** What a polling cycle is, in terms of the call of [initFlutterParams]
    it makes. *)
Lemma checkSessionAndUpdateUI_unfold w s :
  checkSessionAndUpdateUI w s
  = let i := initFlutterParams w s in
    match value i with
    | Some _ =>
        mkRes (Some tt) (final i)
          (trace i
           ++ (if (sessionReady (final i) && negb (sessionReady s)
                   && match win_gameState w with Some 0 => true | _ => false end)%bool
               then [FadeIn "#startBtn"] else [])
           ++ (if negb (sessionReady (final i))
               then [SetTimeout CheckSessionAndUpdateUI 500] else []))
    | None => mkRes None (final i) (trace i)
    end.
Proof.
  unfold checkSessionAndUpdateUI. rewrite bind_get. cbv zeta.
  unfold bind at 1.
  destruct (initFlutterParams w s) as [[[]|] s1 t1]; cbn [value final trace];
    [|reflexivity].
  rewrite bind_get.
  destruct (sessionReady s1 && negb (sessionReady s)
            && match win_gameState w with Some 0 => true | _ => false end)%bool;
    destruct (negb (sessionReady s1)); reflexivity.
Qed.

Lemma reinitFlutterSession_unfold w s :
  reinitFlutterSession w s
  = let i := initFlutterParams w s in
    match value i with
    | Some _ =>
        let b := (truthy (sessionId (final i)) && truthy (authToken (final i)))%bool in
        mkRes (Some b) (final i)
          (trace i ++ (if b then [ConsoleLog "Session re-initialized successfully"]
                       else []))
    | None => mkRes None (final i) (trace i)
    end.
Proof.
  unfold reinitFlutterSession. cbv zeta. unfold bind at 1.
  destruct (initFlutterParams w s) as [[[]|] s1 t1]; cbn [value final trace];
    [|reflexivity].
  rewrite bind_get.
  destruct (truthy (sessionId s1) && truthy (authToken s1))%bool; reflexivity.
Qed.

(** X13.  When a call of [initFlutterParams], a polling cycle or a call
    of [reinitFlutterSession] ends normally, the readiness flag says
    exactly whether [sessionId] and [authToken] are both truthy, and
    [reinitFlutterSession] returns the flag. *)
Theorem readiness_agrees_with_identity (w : Window) (s : Flutter) :
  let ready_ok (t : Flutter) :=
    sessionReady t = (truthy (sessionId t) && truthy (authToken t))%bool in
  (value (initFlutterParams w s) = Some tt -> ready_ok (final (initFlutterParams w s)))
  /\ (value (checkSessionAndUpdateUI w s) = Some tt ->
      ready_ok (final (checkSessionAndUpdateUI w s)))
  /\ (forall b, value (reinitFlutterSession w s) = Some b ->
      ready_ok (final (reinitFlutterSession w s))
      /\ b = sessionReady (final (reinitFlutterSession w s))).
Proof.
  intros ready_ok. subst ready_ok. cbv beta.
  pose proof (initFlutterParams_agrees w s I) as T.
  split; [|split].
  - intros E. rewrite E in T. exact T.
  - rewrite checkSessionAndUpdateUI_unfold. cbv zeta.
    destruct (value (initFlutterParams w s)) as [[]|]; cbn [value final];
      [|discriminate].
    intros _. exact T.
  - intros b. rewrite reinitFlutterSession_unfold. cbv zeta.
    destruct (value (initFlutterParams w s)) as [[]|]; cbn [value final];
      [|discriminate].
    intros Hb. injection Hb as <-. split; [exact T|]. symmetry. exact T.
Qed.

Lemma avoids_initFlutterParams p w :
  p AddMessageListener = false ->
  (forall msg, p (ConsoleLog msg) = false) ->
  (forall msg, p (ConsoleWarn msg) = false) ->
  (forall t d, p (PostMessage t d) = false) ->
  (forall n t d, p (CallHandler n t d) = false) ->
  avoids p (initFlutterParams w).
Proof.
  intros Hl Hc Hw Hp Hh.
  unfold initFlutterParams, requestParams, resolveSession, fromInjected, fromUrl,
    listen, debugBlock, updateReady.
  step_m; apply avoids_emit; auto.
Qed.

(** X14.  A polling cycle that ends normally starts one timer, for the
    next cycle 500 ms later, when the session is not ready, and none
    when it is ready; a cycle that ends by an exception (a query
    parameter that does not decode) starts no timer, so that chain of
    polling ends. *)
Theorem polling_continues_until_ready (w : Window) (s : Flutter) :
  let r := checkSessionAndUpdateUI w s in
  List.filter is_timer (trace r)
  = match value r with
    | Some _ =>
        if sessionReady (final r) then []
        else [SetTimeout CheckSessionAndUpdateUI 500]
    | None => []
    end.
Proof.
  intros r. subst r. rewrite checkSessionAndUpdateUI_unfold. cbv zeta.
  assert (A : List.filter is_timer (trace (initFlutterParams w s)) = []).
  { apply avoids_initFlutterParams; reflexivity. }
  destruct (value (initFlutterParams w s)) as [[]|]; cbn [value final trace];
    [|exact A].
  rewrite !filter_app, A.
  destruct (sessionReady (final (initFlutterParams w s)) && negb (sessionReady s)
            && match win_gameState w with Some 0 => true | _ => false end)%bool;
    destruct (sessionReady (final (initFlutterParams w s))); reflexivity.
Qed.

(** X15.  A polling cycle shows the start button only when it ends
    normally, the session has just become ready (it was not ready when
    the cycle began) and the game state is 0; then it shows it once. *)
Theorem start_button_shown_when_ready (w : Window) (s : Flutter) :
  let r := checkSessionAndUpdateUI w s in
  List.filter is_fadeIn (trace r)
  = if (match value r with Some _ => true | None => false end
        && sessionReady (final r) && negb (sessionReady s)
        && match win_gameState w with Some 0 => true | _ => false end)%bool
    then [FadeIn "#startBtn"] else [].
Proof.
  intros r. subst r. rewrite checkSessionAndUpdateUI_unfold. cbv zeta.
  assert (A : List.filter is_fadeIn (trace (initFlutterParams w s)) = []).
  { apply avoids_initFlutterParams; reflexivity. }
  destruct (value (initFlutterParams w s)) as [[]|]; cbn [value final trace andb];
    [|exact A].
  rewrite !filter_app, A.
  destruct (sessionReady (final (initFlutterParams w s)) && negb (sessionReady s)
            && match win_gameState w with Some 0 => true | _ => false end)%bool;
    destruct (negb (sessionReady (final (initFlutterParams w s)))); reflexivity.
Qed.

End Readiness.

Lemma readiness_agrees_with_identity_witness :
  sessionReady (final (@checkSessionAndUpdateUI Browser.browser framedWindow initialFlutter))
  = (truthy (sessionId (final (@checkSessionAndUpdateUI Browser.browser framedWindow
                                  initialFlutter)))
     && truthy (authToken (final (@checkSessionAndUpdateUI Browser.browser framedWindow
                                    initialFlutter))))%bool.
Proof.
  exact (proj1 (proj2 (@readiness_agrees_with_identity Browser.browser framedWindow
                         initialFlutter)) eq_refl).
Defined.

Section Sources.

Context `{Builtins}.

Lemma resolved_listener w s :
  List.filter is_listener (trace (resolved w s))
  = match value (resolved w s) with
    | Some _ => if in_frame w then [AddMessageListener] else []
    | None => []
    end.
Proof.
  assert (A1 : List.filter is_listener (trace (requestParams w s)) = []).
  { unfold requestParams. revert s. change (avoids is_listener (requestParams w)).
    unfold requestParams. step_m. }
  pose proof (requestParams_total w s) as T1.
  unfold resolved, bind.
  destruct (requestParams w s) as [[[]|] s1 t1]; cbn [value trace] in *;
    [|discriminate].
  assert (A2 : List.filter is_listener (trace (resolveSession w s1)) = []).
  { revert s1. change (avoids is_listener (resolveSession w)).
    unfold resolveSession, fromInjected, fromUrl. step_m. }
  destruct (resolveSession w s1) as [[[]|] s2 t2]; cbn [value trace] in *.
  - unfold listen. destruct (in_frame w); cbn [emit ret value final trace];
      rewrite !filter_app, A1, A2; reflexivity.
  - rewrite filter_app, A1, A2. reflexivity.
Qed.

(** X16.  Every call of [initFlutterParams] that gets past the reading
    of the session (lines 21-82 end normally) in a window embedded in a
    frame adds one more message listener, and none otherwise; nothing in
    the function removes a listener, so they add up over the polls. *)
Theorem each_poll_adds_a_listener (w : Window) (s : Flutter) :
  List.filter is_listener (trace (initFlutterParams w s))
  = match value (resolved w s) with
    | Some _ => if in_frame w then [AddMessageListener] else []
    | None => []
    end.
Proof.
  rewrite initFlutterParams_split.
  pose proof (resolved_listener w s) as R.
  unfold bind at 1.
  destruct (resolved w s) as [[[]|] s1 t1]; cbn [value trace] in *; [|exact R].
  assert (A : List.filter is_listener
                (trace (bind (debugBlock w) (fun _ => updateReady) s1)) = []).
  { revert s1. change (avoids is_listener (bind (debugBlock w) (fun _ => updateReady))).
    unfold debugBlock, updateReady. step_m. }
  destruct (bind (debugBlock w) (fun _ => updateReady) s1) as [v s2 t2];
    cbn [trace] in *.
  rewrite filter_app, R, A. apply app_nil_r.
Qed.

Lemma debugBlock_skips w s :
  truthy (sessionId s) = true \/ truthy (authToken s) = true ->
  final (debugBlock w s) = s.
Proof.
  intros Hs. unfold debugBlock, getUrlParameter.
  destruct (url_parameter "debug" (location_search w)) as [d|]; [|reflexivity].
  unfold bind at 1. cbn [ret value final trace]. rewrite bind_get.
  destruct Hs as [-> | ->]; cbn [negb andb]; rewrite ?andb_false_r; reflexivity.
Qed.

Lemma fromInjected_fresh w gs :
  expired w gs = false ->
  triple (fun _ => True) (fromInjected w gs)
    (fun _ s => sessionId s = gs_sessionId gs /\ authToken s = gs_token gs)
    (fun s => sessionId s = gs_sessionId gs /\ authToken s = gs_token gs).
Proof.
  intros He s _. unfold fromInjected. rewrite He.
  run_m; split; reflexivity.
Qed.

(** X17.  An injected session that has not expired and carries a truthy
    [sessionId] and [token] wins over everything else: after the call
    the identity is the injected one whatever the query string says
    (its [sessionId], [authToken] and [debug] parameters included) and
    whatever was resolved before, and the session is ready when the call
    ends normally. *)
Theorem injected_session_has_priority (w : Window) (gs : GameSession) (s : Flutter) :
  GAME_SESSION w = Some gs -> expired w gs = false ->
  truthy (gs_sessionId gs) = true -> truthy (gs_token gs) = true ->
  let r := initFlutterParams w s in
  sessionId (final r) = gs_sessionId gs /\ authToken (final r) = gs_token gs
  /\ (value r = Some tt -> sessionReady (final r) = true).
Proof.
  intros Hgs He Hi Ht r.
  set (P := fun t : Flutter => sessionId t = gs_sessionId gs /\ authToken t = gs_token gs).
  assert (T : triple (fun _ => True) (initFlutterParams w)
                (fun _ t => P t /\ sessionReady t = true) P).
  { unfold initFlutterParams.
    eapply triple_bind.
    { apply triple_total_readonly; [apply requestParams_readonly|].
      intros t. rewrite requestParams_total. discriminate. }
    intros ?. eapply triple_bind.
    { unfold resolveSession. rewrite Hgs. apply fromInjected_fresh. exact He. }
    intros ?. eapply triple_bind.
    { apply triple_readonly. apply listen_readonly. }
    intros ?. eapply triple_bind.
    { intros t Ht'. rewrite debugBlock_skips.
      - destruct (value (debugBlock w t)); exact Ht'.
      - left. destruct Ht' as [-> _]. exact Hi. }
    intros ?. intros t [Ei Ea]. unfold updateReady. rewrite bind_get.
    rewrite Ei, Ea, Hi, Ht. cbn [andb]. eval_m. unfold P. cbn. auto. }
  specialize (T s I). fold r in T.
  destruct (value r) as [[]|].
  - destruct T as [[Ei Ea] Er]. auto.
  - destruct T as [Ei Ea]. repeat split; try assumption. discriminate.
Qed.

Lemma fromUrl_reads w :
  triple (fun _ => True) (fromUrl w)
    (fun _ t =>
       exists qp qs qa,
         url_parameter "poolId" (location_search w) = Some qp
         /\ url_parameter "sessionId" (location_search w) = Some qs
         /\ url_parameter "authToken" (location_search w) = Some qa
         /\ poolId t = JStr qp /\ sessionId t = JStr qs /\ authToken t = JStr qa)
    (fun _ => True).
Proof.
  intros s _. unfold fromUrl.
  run_m; try exact I; do 3 eexists; repeat split; reflexivity.
Qed.

Lemma initFlutterParams_from_url w :
  GAME_SESSION w = None ->
  url_parameter "debug" (location_search w) <> Some "true" ->
  triple (fun _ => True) (initFlutterParams w)
    (fun _ t => url_identity w t
                /\ sessionReady t = (truthy (sessionId t) && truthy (authToken t))%bool)
    (fun _ => True).
Proof.
  intros Hgs Hd. unfold initFlutterParams.
  eapply triple_bind; [apply triple_any|intros ?].
  eapply triple_bind.
  { unfold resolveSession. rewrite Hgs. apply fromUrl_reads. }
  intros ?. eapply triple_bind.
  { intros t Ht. rewrite listen_readonly.
    destruct (value (listen w t)); [exact Ht|exact I]. }
  intros ?. eapply triple_bind.
  { intros t Ht. destruct (debugBlock_inert w t Hd) as [-> _].
    destruct (value (debugBlock w t)); [exact Ht|exact I]. }
  intros ?. intros t Ht. pose proof (updateReady_agrees (fun _ => True) t I) as U.
  assert (F : final (updateReady t)
              = final (set_sessionReady (sessionReady (final (updateReady t))) t)).
  { unfold updateReady. rewrite bind_get.
    destruct (truthy (sessionId t) && truthy (authToken t))%bool; reflexivity. }
  destruct (value (updateReady t)); [|exact I].
  split; [|exact U].
  rewrite F. exact Ht.
Qed.

(** X18.  Without an injected object and without [debug=true], a call
    that ends normally leaves exactly the identity of the query string:
    [poolId], [sessionId] and [authToken] are the decoded parameters (the
    empty string for a missing one) whatever they were before - an
    identity received earlier in a host message is overwritten - and the
    session is ready exactly when both [sessionId] and [authToken] of the
    query string are non-empty. *)
Theorem url_identity_overwrites (w : Window) (s : Flutter) :
  GAME_SESSION w = None ->
  url_parameter "debug" (location_search w) <> Some "true" ->
  value (initFlutterParams w s) = Some tt ->
  exists qp qs qa,
    url_parameter "poolId" (location_search w) = Some qp
    /\ url_parameter "sessionId" (location_search w) = Some qs
    /\ url_parameter "authToken" (location_search w) = Some qa
    /\ poolId (final (initFlutterParams w s)) = JStr qp
    /\ sessionId (final (initFlutterParams w s)) = JStr qs
    /\ authToken (final (initFlutterParams w s)) = JStr qa
    /\ sessionReady (final (initFlutterParams w s))
       = (negb (qs =? "") && negb (qa =? ""))%bool.
Proof.
  intros Hgs Hd Hv.
  pose proof (initFlutterParams_from_url w Hgs Hd s I) as T.
  rewrite Hv in T. destruct T as [(qp & qs & qa & T) R].
  destruct T as (Ep & Es & Ea & Fp & Fs & Fa).
  exists qp, qs, qa. repeat (split; [assumption|]).
  rewrite R, Fs, Fa. reflexivity.
Qed.

End Sources.

Section HostMessages.

Context `{Builtins}.

(** What the listener does with a message of type [flutterParams]. *)
Lemma onMessage_flutterParams gs d s :
  strict_eq_str (md_type d) "flutterParams" = true ->
  let s' := final (onMessage gs (Some d) s) in
  value (onMessage gs (Some d) s) = Some tt
  /\ poolId s' = jor (md_poolId d) (poolId s)
  /\ sessionId s' = jor (md_sessionId d) (sessionId s)
  /\ authToken s' = jor (md_authToken d) (authToken s)
  /\ sessionReady s'
     = (sessionReady s || (truthy (sessionId s') && truthy (authToken s')))%bool
  /\ List.filter is_fadeIn (trace (onMessage gs (Some d) s))
     = if (truthy (sessionId s') && truthy (authToken s')
           && match gs with Some 0 => true | _ => false end)%bool
       then [FadeIn "#startBtn"] else [].
Proof.
  intros Ht. cbv zeta. unfold onMessage. rewrite Ht.
  destruct gs as [[| |]|];
    run_m;
    cbn [value final trace poolId sessionId authToken sessionReady andb orb
         filter is_fadeIn app];
    rewrite ?orb_true_r, ?orb_false_r;
    first [discriminate | repeat split; reflexivity].
Qed.

(** X19.  A host message never takes anything away: a truthy [poolId],
    [sessionId] or [authToken] stays truthy and a ready session stays
    ready, whatever the message holds (empty fields included), and the
    listener never throws. *)
Theorem onMessage_never_clears (gs : option Z) (data : option MessageData) (s : Flutter) :
  let s' := final (onMessage gs data s) in
  value (onMessage gs data s) = Some tt
  /\ (truthy (poolId s) = true -> truthy (poolId s') = true)
  /\ (truthy (sessionId s) = true -> truthy (sessionId s') = true)
  /\ (truthy (authToken s) = true -> truthy (authToken s') = true)
  /\ (sessionReady s = true -> sessionReady s' = true).
Proof.
  destruct data as [d|]; [|cbn; auto].
  destruct (strict_eq_str (md_type d) "flutterParams") eqn:Ht.
  - destruct (onMessage_flutterParams gs d s Ht) as (V & P & I & A & R & _).
    cbv zeta. rewrite P, I, A, R, !truthy_jor. split; [exact V|].
    repeat split; intros ->; rewrite ?orb_true_r; reflexivity.
  - unfold onMessage. rewrite Ht. cbn. auto.
Qed.

(** X20.  A [flutterParams] message that carries a truthy [sessionId]
    and a truthy [authToken] makes the session ready with that identity,
    whatever was resolved before, and shows the start button exactly
    when the game state is 0. *)
Theorem message_with_identity_makes_ready (gs : option Z) (d : MessageData) (s : Flutter) :
  strict_eq_str (md_type d) "flutterParams" = true ->
  truthy (md_sessionId d) = true -> truthy (md_authToken d) = true ->
  let r := onMessage gs (Some d) s in
  sessionId (final r) = md_sessionId d /\ authToken (final r) = md_authToken d
  /\ sessionReady (final r) = true
  /\ List.filter is_fadeIn (trace r)
     = match gs with Some 0 => [FadeIn "#startBtn"] | _ => [] end.
Proof.
  intros Ht Hi Ha r. subst r.
  destruct (onMessage_flutterParams gs d s Ht) as (_ & _ & I & A & R & F).
  cbv zeta in *. rewrite F, R, I, A. unfold jor. rewrite Hi, Ha, Hi, Ha.
  cbn [andb]. rewrite orb_true_r.
  repeat split. destruct gs as [[| |]|]; reflexivity.
Qed.

End HostMessages.

Lemma onMessage_never_clears_witness :
  sessionReady (final (@onMessage Browser.browser (Some 1) (Some emptyMessage) readySession))
  = true.
Proof.
  exact (proj2 (proj2 (proj2 (proj2
    (@onMessage_never_clears Browser.browser (Some 1) (Some emptyMessage) readySession))))
    eq_refl).
Defined.

Lemma message_with_identity_makes_ready_witness :
  sessionReady (final (@onMessage Browser.browser (Some 0) (Some fullMessage) initialFlutter))
  = true.
Proof.
  exact (proj1 (proj2 (proj2
    (@message_with_identity_makes_ready Browser.browser (Some 0) fullMessage initialFlutter
       eq_refl eq_refl eq_refl)))).
Defined.

Section Idempotence.

Context `{Builtins}.

Lemma seq_inv {B} (m : M unit) (k : unit -> M B) s b :
  value (bind m k s) = Some b ->
  value (m s) = Some tt /\ value (k tt (final (m s))) = Some b
  /\ final (bind m k s) = final (k tt (final (m s))).
Proof.
  unfold bind. destruct (m s) as [[[]|] s1 t1]; cbn [value final];
    [|discriminate].
  destruct (k tt s1) as [v s2 t2]; cbn [value final]. auto.
Qed.

Lemma resolveSession_again w s t :
  value (resolveSession w s) = Some tt ->
  gameTimerDuration t = gameTimerDuration (final (resolveSession w s)) ->
  apiServerUrl t = apiServerUrl (final (resolveSession w s)) ->
  value (resolveSession w t) = Some tt
  /\ same_but_ready (final (resolveSession w t)) (final (resolveSession w s)).
Proof.
  unfold resolveSession, same_but_ready.
  destruct (GAME_SESSION w) as [gs|]; [unfold fromInjected|unfold fromUrl];
    run_m; intros E Ht Ha; first [discriminate | repeat split; congruence].
Qed.

Lemma debugBlock_same w s t :
  same_but_ready s t ->
  value (debugBlock w s) = value (debugBlock w t)
  /\ same_but_ready (final (debugBlock w s)) (final (debugBlock w t)).
Proof.
  destruct s as [p i a d u r], t as [p' i' a' d' u' r'].
  unfold same_but_ready. cbn. intros (-> & -> & -> & -> & ->).
  unfold debugBlock. run_m; repeat split; reflexivity.
Qed.

Lemma debugBlock_config w s :
  gameTimerDuration (final (debugBlock w s)) = gameTimerDuration s
  /\ apiServerUrl (final (debugBlock w s)) = apiServerUrl s.
Proof. unfold debugBlock. run_m; split; reflexivity. Qed.

Lemma updateReady_same s t :
  same_but_ready s t ->
  final (updateReady s) = final (updateReady t) /\ value (updateReady t) = Some tt.
Proof.
  destruct s as [p i a d u r], t as [p' i' a' d' u' r'].
  unfold same_but_ready. cbn. intros (-> & -> & -> & -> & ->).
  unfold updateReady. run_m; split; reflexivity.
Qed.

Lemma updateReady_total s : value (updateReady s) = Some tt.
Proof. unfold updateReady. run_m; reflexivity. Qed.

Lemma updateReady_config s :
  gameTimerDuration (final (updateReady s)) = gameTimerDuration s
  /\ apiServerUrl (final (updateReady s)) = apiServerUrl s.
Proof. unfold updateReady. run_m; split; reflexivity. Qed.

(** X21.  Polling is idempotent on the globals: when a call of
    [initFlutterParams] ends normally, a second call in the same window
    ends normally too and leaves every global as the first call left
    it. *)
Theorem poll_is_idempotent (w : Window) (s : Flutter) :
  value (initFlutterParams w s) = Some tt ->
  value (initFlutterParams w (final (initFlutterParams w s))) = Some tt
  /\ final (initFlutterParams w (final (initFlutterParams w s)))
     = final (initFlutterParams w s).
Proof.
  intros V. set (s1 := final (initFlutterParams w s)).
  (* the first call, phase by phase *)
  assert (F : exists a,
    a = final (resolveSession w s)
    /\ value (resolveSession w s) = Some tt
    /\ value (debugBlock w a) = Some tt
    /\ s1 = final (updateReady (final (debugBlock w a)))).
  { subst s1. unfold initFlutterParams in *.
    destruct (seq_inv _ _ _ _ V) as (_ & V1 & ->).
    rewrite requestParams_readonly in *.
    destruct (seq_inv _ _ _ _ V1) as (Va & V2 & ->).
    destruct (seq_inv _ _ _ _ V2) as (_ & V3 & ->).
    rewrite listen_readonly in *.
    destruct (seq_inv _ _ _ _ V3) as (Vc & _ & ->).
    eexists. repeat split; assumption. }
  destruct F as (a & Ea & Va & Vc & E1).
  (* the configuration of [s1] is the one of [a] *)
  assert (C : gameTimerDuration s1 = gameTimerDuration a
              /\ apiServerUrl s1 = apiServerUrl a).
  { rewrite E1.
    destruct (updateReady_config (final (debugBlock w a))) as [-> ->].
    apply debugBlock_config. }
  destruct C as [Ct Cu]. rewrite Ea in Ct, Cu.
  destruct (resolveSession_again w s s1 Va Ct Cu) as [Va' Sa].
  rewrite <- Ea in Sa.
  destruct (debugBlock_same w _ _ Sa) as [Vc' Sc]. rewrite Vc in Vc'.
  destruct (updateReady_same _ _ Sc) as [Ed _].
  (* the second call *)
  unfold initFlutterParams.
  pose proof (bind_normal (requestParams w)
                (fun _ => bind (resolveSession w) (fun _ => bind (listen w)
                   (fun _ => bind (debugBlock w) (fun _ => updateReady))))
                s1 tt (requestParams_total w s1)) as [-> ->].
  rewrite requestParams_readonly.
  pose proof (bind_normal (resolveSession w)
                (fun _ => bind (listen w)
                   (fun _ => bind (debugBlock w) (fun _ => updateReady)))
                s1 tt Va') as [-> ->].
  assert (Vl : value (listen w (final (resolveSession w s1))) = Some tt).
  { unfold listen. destruct (in_frame w); reflexivity. }
  pose proof (bind_normal (listen w)
                (fun _ => bind (debugBlock w) (fun _ => updateReady))
                _ tt Vl) as [-> ->].
  rewrite listen_readonly.
  pose proof (bind_normal (debugBlock w) (fun _ => updateReady)
                _ tt Vc') as [-> ->].
  split.
  - apply updateReady_total.
  - rewrite Ed. symmetry. exact E1.
Qed.

End Idempotence.

Lemma poll_is_idempotent_witness :
  final (@initFlutterParams Browser.browser debugWindow
           (final (@initFlutterParams Browser.browser debugWindow initialFlutter)))
  = final (@initFlutterParams Browser.browser debugWindow initialFlutter).
Proof.
  exact (proj2 (@poll_is_idempotent Browser.browser debugWindow initialFlutter eq_refl)).
Defined.

(* ================================================================= *)
(** ** Properties of getUrlParameter *)

Section QueryString.








Context `{Builtins}.



End QueryString.



(* ================================================================= *)
(** ** Properties of easeOutCubic *)

Section Easing.

Local Open Scope Q_scope.

(** X24.  For a duration other than zero, the easing starts at the
    beginning value and ends, when the time equals the duration, at the
    beginning value plus the change (in exact arithmetic). *)
Theorem easeOutCubic_endpoints (b c d : Q) :
  ~ d == 0 ->
  easeOutCubic 0 b c d == b /\ easeOutCubic d b c d == b + c.
Proof.
  intros Hd. unfold easeOutCubic. split; field; exact Hd.
Qed.

Lemma easeOutCubic_endpoints_witness : easeOutCubic 300 10 5 300 == 10 + 5.
Proof.
  refine (proj2 (easeOutCubic_endpoints 10 5 300 _)). discriminate.
Defined.

Lemma square_nonneg (x : Q) : 0 <= x * x.
Proof.
  destruct (Qlt_le_dec x 0) as [Hn|Hp].
  - assert (E : x * x == (- x) * (- x)) by ring.
    rewrite E. apply Qmult_le_0_compat; lra.
  - apply Qmult_le_0_compat; exact Hp.
Qed.

Lemma cube_le (u v : Q) : u <= v -> u * u * u <= v * v * v.
Proof.
  intros Huv.
  assert (E : v * v * v - u * u * u
              == (v - u) * ((u + v * (1 # 2)) * (u + v * (1 # 2)) + (3 # 4) * (v * v)))
    by ring.
  assert (P : 0 <= (v - u) * ((u + v * (1 # 2)) * (u + v * (1 # 2)) + (3 # 4) * (v * v))).
  { apply Qmult_le_0_compat; [lra|].
    pose proof (square_nonneg (u + v * (1 # 2))).
    pose proof (square_nonneg v).
    lra. }
  rewrite <- E in P. lra.
Qed.

(** X25.  For a positive duration and a change that is not negative,
    the easing never goes backwards: a later time gives a value at least
    as large, so between time 0 and the duration the value stays between
    the beginning value and the beginning value plus the change (in
    exact arithmetic). *)
Theorem easeOutCubic_monotone (t1 t2 b c d : Q) :
  0 < d -> 0 <= c -> t1 <= t2 ->
  easeOutCubic t1 b c d <= easeOutCubic t2 b c d
  /\ (0 <= t1 -> t2 <= d ->
      b <= easeOutCubic t1 b c d /\ easeOutCubic t2 b c d <= b + c).
Proof.
  intros Hd Hc Ht.
  assert (M : forall x y, x <= y -> easeOutCubic x b c d <= easeOutCubic y b c d).
  { intros x y Hxy. unfold easeOutCubic.
    assert (Hu : x / d - 1 <= y / d - 1).
    { unfold Qdiv. assert (x * / d <= y * / d).
      { apply Qmult_le_compat_r; [exact Hxy|].
        apply Qlt_le_weak, Qinv_lt_0_compat. exact Hd. }
      lra. }
    pose proof (cube_le _ _ Hu) as Hcube.
    assert (Hm : c * ((x / d - 1) * (x / d - 1) * (x / d - 1) + 1)
                 <= c * ((y / d - 1) * (y / d - 1) * (y / d - 1) + 1)).
    { rewrite !(Qmult_comm c). apply Qmult_le_compat_r; [lra|exact Hc]. }
    lra. }
  assert (Hd0 : ~ d == 0) by lra.
  assert (E0 : easeOutCubic 0 b c d == b) by (unfold easeOutCubic; field; exact Hd0).
  assert (E1 : easeOutCubic d b c d == b + c)
    by (unfold easeOutCubic; field; exact Hd0).
  split; [apply M; exact Ht|].
  intros H1 H2.
  pose proof (M 0 t1 H1) as L. pose proof (M t2 d H2) as U.
  split; lra.
Qed.

Lemma easeOutCubic_monotone_witness : easeOutCubic 100 10 5 300 <= easeOutCubic 200 10 5 300.
Proof.
  refine (proj1 (easeOutCubic_monotone 100 200 10 5 300 _ _ _));
    unfold Qlt, Qle; simpl; lia.
Defined.

End Easing.

(* ================================================================= *)
(** ** The start button after a return to the main menu *)

Section MainMenu.

Import Menu.

(** X26.  After [setMainMenu] the start button is dead for the 500 ms
    of the timer that [setMainMenu] starts: [startBtnHandler] only sets
    up its listener swap and calls neither [init] nor [resumeGame].  Once
    the timer has fired, [startBtnHandler] starts the game with exactly
    one of the two calls. *)
Theorem start_button_waits_after_main_menu (side : bool) (u : Ui) :
  let menu := fst (setMainMenu u) in
  snd (setMainMenu u) = [UiTimeout RestartAllowed 500]
  /\ ui_gameState menu = Some 4%Z
  /\ startBtnHandler side menu = [UiTimeout SwapListeners 5]
  /\ List.length (List.filter starts_game (startBtnHandler side (fire RestartAllowed menu)))
     = 1%nat.
Proof.
  cbv zeta. repeat split.
  unfold startBtnHandler. cbn.
  destruct side, (importing u =? 1)%Z; reflexivity.
Qed.

End MainMenu.

(* ================================================================= *)
(** ** How the sources of the session combine *)

Section Combined.

Context `{Builtins}.

Lemma checkSessionAndUpdateUI_final w s :
  value (checkSessionAndUpdateUI w s) = value (initFlutterParams w s)
  /\ final (checkSessionAndUpdateUI w s) = final (initFlutterParams w s).
Proof.
  rewrite checkSessionAndUpdateUI_unfold. cbv zeta.
  destruct (value (initFlutterParams w s)) as [[]|]; split; reflexivity.
Qed.

(** X27.  A session that arrived in a host message does not survive the
    next polling cycle when there is no injected object and the query
    string names no [sessionId] (and no [debug=true]): the message makes
    the session ready, the cycle that follows, when it ends normally,
    overwrites the identity with the empty query-string values and the
    session is not ready any more. *)
Theorem message_session_lost_at_next_poll
  (gs : option Z) (d : MessageData) (w : Window) (s : Flutter) :
  strict_eq_str (md_type d) "flutterParams" = true ->
  truthy (md_sessionId d) = true -> truthy (md_authToken d) = true ->
  GAME_SESSION w = None ->
  url_parameter "debug" (location_search w) <> Some "true" ->
  url_parameter "sessionId" (location_search w) = Some "" ->
  value (checkSessionAndUpdateUI w (history [HostMessage gs (Some d)] s)) = Some tt ->
  sessionReady (history [HostMessage gs (Some d)] s) = true
  /\ sessionReady (history [HostMessage gs (Some d); Poll w] s) = false
  /\ sessionId (history [HostMessage gs (Some d); Poll w] s) = JStr "".
Proof.
  intros Ht Hi Ha Hgs Hd Hs Hv.
  cbn [history fold_left after] in *.
  destruct (onMessage_flutterParams gs d s Ht) as (_ & _ & Mi & Ma & R & _).
  cbv zeta in *.
  split.
  { rewrite R, Mi, Ma, !truthy_jor, Hi, Ha. cbn [orb andb].
    apply orb_true_r. }
  destruct (checkSessionAndUpdateUI_final w (final (onMessage gs (Some d) s)))
    as [Ev Ef].
  rewrite Ef. rewrite Ev in Hv.
  pose proof (initFlutterParams_from_url w Hgs Hd
                (final (onMessage gs (Some d) s)) I) as T.
  rewrite Hv in T.
  destruct T as [(qp & qs & qa & _ & Es & _ & _ & Fs & _) Fr].
  rewrite Hs in Es. injection Es as <-.
  rewrite Fr, Fs. split; reflexivity.
Qed.

Lemma fromInjected_total w gs s qp :
  url_parameter "poolId" (location_search w) = Some qp ->
  value (fromInjected w gs s) = Some tt.
Proof.
  intros Hp. unfold fromInjected, getUrlParameter. rewrite Hp.
  run_m; reflexivity.
Qed.

(** X28.  In debug mode an expired injected session does fall back to
    the query string: with [debug=true] and the three identity
    parameters decoding, the call ends normally with the session ready,
    [sessionId] and [authToken] being those of the query string when
    they are non-empty and the placeholders otherwise - never those of
    the expired object. *)
Theorem expired_session_in_debug_mode
  (w : Window) (gs : GameSession) (s : Flutter) (qp qs qa : string) :
  GAME_SESSION w = Some gs -> expired w gs = true ->
  url_parameter "debug" (location_search w) = Some "true" ->
  url_parameter "poolId" (location_search w) = Some qp ->
  url_parameter "sessionId" (location_search w) = Some qs ->
  url_parameter "authToken" (location_search w) = Some qa ->
  let r := initFlutterParams w s in
  value r = Some tt
  /\ sessionId (final r) = jor (JStr qs) (JStr "test-session-456")
  /\ authToken (final r) = jor (JStr qa) (JStr "test-token-789")
  /\ sessionReady (final r) = true.
Proof.
  intros Hgs He Hd Hp Hi Ha r.
  (* lines 21-107 end normally with no identity *)
  assert (R : value (resolved w s) = Some tt /\ no_identity (final (resolved w s))).
  { unfold resolved.
    destruct (bind_normal (requestParams w)
                (fun _ => bind (resolveSession w) (fun _ => listen w))
                s tt (requestParams_total w s)) as [-> ->].
    rewrite requestParams_readonly.
    assert (V : value (resolveSession w s) = Some tt).
    { unfold resolveSession. rewrite Hgs. apply (fromInjected_total w gs s qp Hp). }
    destruct (bind_normal (resolveSession w) (fun _ => listen w) s tt V) as [-> ->].
    rewrite listen_readonly.
    split; [unfold listen; destruct (in_frame w); reflexivity|].
    pose proof (fromInjected_expired w gs He s I) as T.
    unfold resolveSession in *. rewrite Hgs in *. rewrite V in T. exact T. }
  destruct R as [Rv [Ri Rt]].
  subst r. rewrite initFlutterParams_split.
  destruct (bind_normal (resolved w)
              (fun _ => bind (debugBlock w) (fun _ => updateReady)) s tt Rv) as [-> ->].
  assert (Fi : truthy (sessionId (final (resolved w s))) = false) by (rewrite Ri; reflexivity).
  assert (Fa : truthy (authToken (final (resolved w s))) = false) by (rewrite Rt; reflexivity).
  destruct (debug_then_ready w (final (resolved w s)) qp qs qa Hd Fi Fa Hp Hi Ha)
    as (V & _ & S & A & Rd).
  auto.
Qed.

End Combined.

Lemma message_session_lost_at_next_poll_witness :
  sessionReady (@history Browser.browser [HostMessage (Some 0) (Some fullMessage);
                                          Poll debuglessWindow] initialFlutter) = false.
Proof.
  exact (proj1 (proj2
    (@message_session_lost_at_next_poll Browser.browser (Some 0) fullMessage
       debuglessWindow initialFlutter eq_refl eq_refl eq_refl eq_refl
       ltac:(vm_compute; discriminate) eq_refl eq_refl))).
Defined.

Lemma expired_session_in_debug_mode_witness :
  sessionReady (final (@initFlutterParams Browser.browser expiredDebugWindow initialFlutter))
  = true.
Proof.
  exact (proj2 (proj2 (proj2
    (@expired_session_in_debug_mode Browser.browser expiredDebugWindow _ initialFlutter
       "pool-9" "sess-9" "" eq_refl eq_refl eq_refl eq_refl eq_refl eq_refl)))).
Defined.

Lemma injected_session_has_priority_witness :
  sessionId (final (@initFlutterParams Browser.browser freshWindow readySession))
  = JStr "sess-1".
Proof.
  exact (proj1 (@injected_session_has_priority Browser.browser freshWindow _ readySession
                  eq_refl eq_refl eq_refl eq_refl)).
Defined.

Lemma url_identity_overwrites_witness :
  exists qp qs qa,
    @url_parameter Browser.browser "poolId" (location_search framedWindow) = Some qp
    /\ @url_parameter Browser.browser "sessionId" (location_search framedWindow) = Some qs
    /\ @url_parameter Browser.browser "authToken" (location_search framedWindow) = Some qa
    /\ poolId (final (@initFlutterParams Browser.browser framedWindow readySession))
       = JStr qp
    /\ sessionId (final (@initFlutterParams Browser.browser framedWindow readySession))
       = JStr qs
    /\ authToken (final (@initFlutterParams Browser.browser framedWindow readySession))
       = JStr qa
    /\ sessionReady (final (@initFlutterParams Browser.browser framedWindow readySession))
       = (negb (qs =? "") && negb (qa =? ""))%bool.
Proof.
  apply (@url_identity_overwrites Browser.browser framedWindow readySession eq_refl);
    [vm_compute; discriminate|reflexivity].
Defined.
